(** * wisecow: the application health checker

  A shallow embedding of [system-app-check/app_health_checker.py]:
  the per-target retry loop of [check_application], the UP/DOWN
  classification, [check_multiple_applications], [generate_report] and
  the exit status of [main].

  Conventions of the embedding.
  - Python [str] values are [string]s whose characters are code points
    below 256; [lower] and [upper] follow [str.lower] and [str.upper] there.
  - Python [float] values (clock readings, response times, the success
    rate) are IEEE 754 binary64 numbers, the [spec_float] of the
    standard library with its correctly rounded operations;
    [round(x, 2)] and the [:.1f]/[:.2f] formats round the exact value of
    the float half to even.
  - The interpreter's world (the [results] list of the checker, what was
    printed, requested, slept, saved and mailed) is an explicit state that
    survives a raised exception, as it does in Python.
  - A call into the environment has the outcomes the program can meet:
    an HTTP request answers, raises a [RequestException] or raises
    another exception; writing the results file and sending mail
    succeed or raise.  Reading a JSON file gives its content or raises
    one of the two exceptions the program handles, [FileNotFoundError]
    and [JSONDecodeError]; a target list is a list of entries with the
    keys of the signature of [check_application]. *)

From Stdlib Require Import List String Ascii Bool Arith ZArith QArith Lia.
From Stdlib Require Import DecimalString SpecFloat.
Import ListNotations.

Local Open Scope string_scope.
Local Open Scope Z_scope.

(** ** Python strings *)

Module PyStr.

Definition code (c : ascii) : N := N_of_ascii c.

Definition in_range (lo hi : N) (n : N) : bool :=
  (N.leb lo n && N.leb n hi)%bool.

(** The cased letters below 256 whose counterpart is 32 code points away:
    A-Z, and the Latin-1 letters 192-222 without the multiplication sign
    215. *)
Definition is_upper (c : ascii) : bool :=
  (in_range 65 90 (code c)
   || (in_range 192 222 (code c) && negb (N.eqb (code c) 215)))%bool.

(** a-z, and 224-254 without the division sign 247.  ([str.upper] sends
    181, 223 and 255 outside the range of code points modelled here; they
    are left alone.) *)
Definition is_lower (c : ascii) : bool :=
  (in_range 97 122 (code c)
   || (in_range 224 254 (code c) && negb (N.eqb (code c) 247)))%bool.

Definition lower_char (c : ascii) : ascii :=
  if is_upper c then ascii_of_N (code c + 32) else c.

Definition upper_char (c : ascii) : ascii :=
  if is_lower c then ascii_of_N (code c - 32) else c.

Fixpoint map_chars (f : ascii -> ascii) (s : string) : string :=
  match s with
  | EmptyString => EmptyString
  | String c s' => String (f c) (map_chars f s')
  end.

(** [s.lower()] and [s.upper()] *)
Definition lower : string -> string := map_chars lower_char.
Definition upper : string -> string := map_chars upper_char.

(** [needle in hay] on strings *)
Fixpoint contains (needle hay : string) : bool :=
  if prefix needle hay then true
  else match hay with
       | EmptyString => false
       | String _ hay' => contains needle hay'
       end.

(** Truth value of an optional string: [None] and [''] are false. *)
Definition truthy (s : option string) : bool :=
  match s with
  | Some (String _ _) => true
  | _ => false
  end.

(** What "occurs as a substring" means. *)
Definition occurs_in (needle hay : string) : Prop :=
  exists pre post, hay = pre ++ needle ++ post.

(** Case-insensitive occurrence: the two strings are compared after
    folding both to lower case. *)
Definition occurs_ignoring_case (needle hay : string) : Prop :=
  occurs_in (lower needle) (lower hay).

End PyStr.

(** ** Python numbers *)

Module PyNum.

(** Nearest integer, ties to the even one. *)
Definition round_half_even (q : Q) : Z :=
  let n := Qnum q in
  let d := Zpos (Qden q) in
  let fl := n / d in
  let r := n mod d in
  match 2 * r ?= d with
  | Lt => fl
  | Gt => fl + 1
  | Eq => if Z.even fl then fl else fl + 1
  end.

Definition pow10 (digits : nat) : Z := 10 ^ Z.of_nat digits.

Definition digits_of (n : Z) : string :=
  NilZero.string_of_uint (N.to_uint (Z.to_N n)).

Fixpoint zeros (n : nat) : string :=
  match n with
  | O => ""
  | S n' => "0" ++ zeros n'
  end.

(** The text of [n], padded with zeros on the left to [width] digits. *)
Definition pad_left (width : nat) (s : string) : string :=
  zeros (width - String.length s) ++ s.

(** The fraction [q] to [digits] decimals, the last one rounded half to
    even. *)
Definition format_f (digits : nat) (q : Q) : string :=
  let scaled := Z.abs (round_half_even (q * inject_Z (pow10 digits))) in
  let sign := if Qnum q <? 0 then "-" else "" in
  let whole := digits_of (scaled / pow10 digits) in
  match digits with
  | O => sign ++ whole
  | _ => sign ++ whole ++ "."
           ++ pad_left digits (digits_of (scaled mod pow10 digits))
  end.

(** [f"{n}"] for an integer *)
Definition format_int (n : Z) : string :=
  if n <? 0 then "-" ++ digits_of (Z.abs n) else digits_of n.

(** [range(n)] *)
Definition range (n : Z) : list Z :=
  map Z.of_nat (seq 0 (Z.to_nat n)).

End PyNum.


(** ** Python floats *)

Module PyFloat.

(** A Python [float]: an IEEE 754 binary64 number. *)
Definition t : Type := spec_float.
Definition prec : Z := 53.
Definition emax : Z := 1024.

Definition zero : t := S754_zero false.

(** The integer [n] as it stands, before any rounding. *)
Definition raw (n : Z) : t :=
  match n with
  | Z0 => S754_zero false
  | Zpos p => S754_finite false p 0
  | Zneg p => S754_finite true p 0
  end.

(** [float(n)], also the conversion of an integer operand next to a
    float one. *)
Definition of_int (n : Z) : t := binary_normalize prec emax n 0 false.

(** [x + y], [x - y], [x * y] and [x / y] on floats, [y] not zero in the
    last. *)
Definition add : t -> t -> t := SFadd prec emax.
Definition sub : t -> t -> t := SFsub prec emax.
Definition mul : t -> t -> t := SFmul prec emax.
Definition div : t -> t -> t := SFdiv prec emax.

(** [a / b] on integers, [b] not zero: the float nearest to the exact
    quotient. *)
Definition int_div (a b : Z) : t := SFdiv prec emax (raw a) (raw b).

(** [x < y] *)
Definition lt : t -> t -> bool := SFltb.

Definition is_zero (x : t) : bool :=
  match x with
  | S754_zero _ => true
  | _ => false
  end.

(** Truth value of a float: the two zeros are false. *)
Definition truthy (x : t) : bool := negb (is_zero x).

Definition sign (x : t) : bool :=
  match x with
  | S754_zero s | S754_infinity s | S754_finite s _ _ => s
  | S754_nan => false
  end.

(** The absolute value of a finite float, as the fraction it is. *)
Definition magnitude (x : t) : Q :=
  match x with
  | S754_finite _ m e =>
      match e with
      | Zneg k => Qmake (Zpos m) (2 ^ k)%positive
      | _ => inject_Z (Zpos m * 2 ^ e)
      end
  | _ => 0%Q
  end.

(** [f"{x:.<digits>f}"] *)
Definition format_f (digits : nat) (x : t) : string :=
  match x with
  | S754_nan => "nan"
  | S754_infinity s => if s then "-inf" else "inf"
  | _ => (if sign x then "-" else "") ++ PyNum.format_f digits (magnitude x)
  end.

(** [round(x, digits)]: the float nearest to the exact value of [x]
    rounded to [digits] decimals. *)
Definition round_to (digits : nat) (x : t) : t :=
  match x with
  | S754_finite s _ _ =>
      match PyNum.round_half_even
              (magnitude x * inject_Z (PyNum.pow10 digits)) with
      | Zpos z =>
          SFdiv prec emax (S754_finite s z 0) (raw (PyNum.pow10 digits))
      | _ => S754_zero s
      end
  | _ => x
  end.

(** [sum(xs)]: the items added one after the other to the integer 0,
    each addition rounded, as CPython 3.11 does. *)
Definition sum (xs : list t) : t := fold_left add xs (of_int 0).

(** [max(xs)] and [min(xs)] on a list with head [x]: the first extremal
    item wins. *)
Definition max_from (x : t) (xs : list t) : t :=
  fold_left (fun m y => if lt m y then y else m) xs x.
Definition min_from (x : t) (xs : list t) : t :=
  fold_left (fun m y => if lt y m then y else m) xs x.

End PyFloat.

(** ** The data of the checker *)

Inductive Status := UP | DOWN.

Definition Status_eqb (a b : Status) : bool :=
  match a, b with
  | UP, UP | DOWN, DOWN => true
  | _, _ => false
  end.

(** A duration in seconds ([timeout], [retry_delay]): a non-negative
    fraction, the values [time.sleep] and [requests] take. *)
Record Seconds := { sec_num : N; sec_den : positive }.

Definition Headers := list (string * string).

(** The value under the key ['content_analysis'] of a result. *)
Record ContentAnalysis := {
  has_critical_keywords : bool;
  has_success_keywords : bool
}.

(** The dict that [check_application] builds.  [status_code] and
    [response_time_ms] are [None] when the Python value is [None];
    [content_analysis] and [error] are [None] when the dict has no such
    key. *)
Module Result.
Record t := {
  name : string;
  url : string;
  status : Status;
  status_code : option Z;
  response_time_ms : option PyFloat.t;
  timestamp : string;
  content_analysis : option ContentAnalysis;
  error : option string
}.
End Result.

(** The dict that [load_config] returns. *)
Module Config.
Record t := {
  timeout : Seconds;
  retry_attempts : Z;
  retry_delay : Seconds;
  expected_status_codes : list Z;
  critical_keywords : list string;
  success_keywords : list string;
  alert_email : option string;
  smtp_server : string;
  smtp_port : Z
}.
End Config.

(** The keys a user's configuration file may set; [None] for a key it
    leaves out. *)
Module Overrides.
Record t := {
  timeout : option Seconds;
  retry_attempts : option Z;
  retry_delay : option Seconds;
  expected_status_codes : option (list Z);
  critical_keywords : option (list string);
  success_keywords : option (list string);
  alert_email : option (option string);
  smtp_server : option string;
  smtp_port : option Z
}.
End Overrides.

(** One entry of the application list: the keyword arguments of
    [check_application]; [None] for a key the entry leaves out. *)
Module App.
Record t := {
  url : string;
  name : option string;
  method : option string;
  headers : option Headers;
  data : option string
}.
End App.

(** The command line after [parse_args]. *)
Module Args.
Record t := {
  config : option string;
  url : option string;
  file : option string;
  save : option string;
  email : bool
}.
End Args.

(** ** The environment *)

(** The three calls into [requests]; every one passes [verify=False]. *)
Inductive HttpCall :=
| requests_get (url : string) (timeout : Seconds) (headers : option Headers)
| requests_post (url : string) (timeout : Seconds) (headers : option Headers)
    (data : option string)
| requests_request (method url : string) (timeout : Seconds)
    (headers : option Headers) (data : option string).

(** What a request does: it answers, with any status code, it raises a
    [requests.exceptions.RequestException] whose [str] is [description],
    or it raises an exception of another class (a [ValueError] for a
    timeout of zero, for one). *)
Inductive Outcome :=
| Response (status_code : Z) (text : string)
| RequestException (description : string)
| OtherException (description : string).

(** [open] followed by [json.load]: the content of the file, or one of
    the two exceptions that [load_config] and [main] handle. *)
Inductive FileRead (A : Type) :=
| FileNotFoundError
| JSONDecodeError
| Loaded (a : A).
Arguments FileNotFoundError {A}.
Arguments JSONDecodeError {A}.
Arguments Loaded {A} a.

Record Mail := {
  mail_from : string;
  mail_to : string;
  mail_subject : string;
  mail_body : string;
  mail_server : string;
  mail_port : Z
}.

(** Everything the run meets outside.  [http n c] is the outcome of call
    [c] when it is the [n]-th request of the run (counting from 0);
    [time_time n] and the two [now_] fields are the [n]-th reading of the
    clock; [write_file f] and [smtp m] are [None] when writing the file
    [f] and sending the message [m] go through, and the description of
    the exception they raise otherwise. *)
Record Env := {
  http : nat -> HttpCall -> Outcome;
  time_time : nat -> PyFloat.t;
  now_isoformat : nat -> string;
  now_strftime : nat -> string;
  read_config : string -> FileRead Overrides.t;
  read_applications : string -> FileRead (list App.t);
  write_file : string -> option string;
  smtp : Mail -> option string
}.

(** ** What the run writes *)

(** The lines the program prints.  Numbers printed through a format
    ([:.1f], [:.2f]) are kept as the text the format produces. *)
Inductive Line :=
| line_checking (name : string)
| line_result (status : Status) (name : string) (status_code : Z)
    (response_time : PyFloat.t)
| line_retrying (attempt : Z) (name : string)
| line_down_error (name : string) (e : string)
| line_starting
| line_rule
| line_summary
| line_total (n : Z)
| line_up (n : Z)
| line_down (n : Z)
| line_success_rate (percent : string)
| line_response_times (avg min max : string)
| line_down_applications
| line_down_app (name : string) (reason : string)
| line_config_not_found (file : string)
| line_config_invalid (file : string)
| line_file_not_found (file : string)
| line_file_invalid (file : string)
| line_alert_sent (to : string)
| line_alert_failed (e : string)
| line_saved (file : string).

Inductive Event :=
| Printed (l : Line)
| Requested (c : HttpCall)
| Slept (d : Seconds)
| Saved (file : string) (contents : list Result.t)
| Mailed (m : Mail).

(** The state of the run: [self.results], how many requests and clock
    readings were made, and the events so far, oldest first. *)
Record World := {
  results : list Result.t;
  requests : nat;
  clock : nat;
  events : list Event
}.

Definition fresh : World :=
  {| results := []; requests := 0; clock := 0; events := [] |}.

(** ** Computations that may raise *)

(** The exceptions that leave a function: the two the program raises
    itself, and any other, by its description. *)
Inductive Exn :=
| ZeroDivisionError
| SystemExit (code : Z)
| OtherError (description : string).

Inductive Res (A : Type) :=
| Return (a : A)
| Raise (e : Exn).
Arguments Return {A} a.
Arguments Raise {A} e.

Definition M (A : Type) : Type := World -> Res A * World.

Definition ret {A} (a : A) : M A := fun w => (Return a, w).

Definition raise {A} (e : Exn) : M A := fun w => (Raise e, w).

Definition bind {A B} (m : M A) (k : A -> M B) : M B :=
  fun w =>
    match m w with
    | (Return a, w') => k a w'
    | (Raise e, w') => (Raise e, w')
    end.

Declare Scope py_scope.
Delimit Scope py_scope with py.
Notation "x <- m ;; k" := (bind m (fun x => k))
  (at level 61, m at next level, right associativity) : py_scope.
Notation "m ;; k" := (bind m (fun _ => k))
  (at level 61, right associativity) : py_scope.
Local Open Scope py_scope.

Definition emit (e : Event) : M unit :=
  fun w => (Return tt,
            {| results := results w; requests := requests w;
               clock := clock w; events := events w ++ [e] |}).

(** [print(...)] *)
Definition print (l : Line) : M unit := emit (Printed l).

(** [time.sleep(d)] *)
Definition sleep (d : Seconds) : M unit := emit (Slept d).

(** [self.results.append(r)] *)
Definition append_result (r : Result.t) : M unit :=
  fun w => (Return tt,
            {| results := results w ++ [r]; requests := requests w;
               clock := clock w; events := events w |}).

Definition get_results : M (list Result.t) :=
  fun w => (Return (results w), w).

Definition read_clock {A} (f : nat -> A) : M A :=
  fun w => (Return (f (clock w)),
            {| results := results w; requests := requests w;
               clock := S (clock w); events := events w |}).

Definition request (env : Env) (c : HttpCall) : M Outcome :=
  fun w => (Return (http env (requests w) c),
            {| results := results w; requests := S (requests w);
               clock := clock w; events := events w ++ [Requested c] |}).

(** [a / b] on two integers *)
Definition true_div (a b : Z) : M PyFloat.t :=
  if b =? 0 then raise ZeroDivisionError else ret (PyFloat.int_div a b).

(** [x / b] on a float and an integer *)
Definition float_div (x : PyFloat.t) (b : Z) : M PyFloat.t :=
  if b =? 0 then raise ZeroDivisionError
  else ret (PyFloat.div x (PyFloat.of_int b)).

(** ** The program *)

Definition default_config : Config.t :=
  {| Config.timeout := {| sec_num := 10; sec_den := 1 |};
     Config.retry_attempts := 3;
     Config.retry_delay := {| sec_num := 2; sec_den := 1 |};
     Config.expected_status_codes := [200; 201; 202; 204];
     Config.critical_keywords := ["error"; "exception"; "down"; "maintenance"];
     Config.success_keywords := ["success"; "ok"; "running"; "healthy"];
     Config.alert_email := None;
     Config.smtp_server := "localhost";
     Config.smtp_port := 587 |}.

Definition or_default {A} (o : option A) (d : A) : A :=
  match o with
  | Some a => a
  | None => d
  end.

(** [default_config.update(user_config)] *)
Definition update (c : Config.t) (u : Overrides.t) : Config.t :=
  {| Config.timeout := or_default (Overrides.timeout u) (Config.timeout c);
     Config.retry_attempts :=
       or_default (Overrides.retry_attempts u) (Config.retry_attempts c);
     Config.retry_delay :=
       or_default (Overrides.retry_delay u) (Config.retry_delay c);
     Config.expected_status_codes :=
       or_default (Overrides.expected_status_codes u)
                  (Config.expected_status_codes c);
     Config.critical_keywords :=
       or_default (Overrides.critical_keywords u) (Config.critical_keywords c);
     Config.success_keywords :=
       or_default (Overrides.success_keywords u) (Config.success_keywords c);
     Config.alert_email :=
       or_default (Overrides.alert_email u) (Config.alert_email c);
     Config.smtp_server :=
       or_default (Overrides.smtp_server u) (Config.smtp_server c);
     Config.smtp_port :=
       or_default (Overrides.smtp_port u) (Config.smtp_port c) |}.

Definition load_config (env : Env) (config_file : option string)
  : M Config.t :=
  if PyStr.truthy config_file then
    let f := or_default config_file "" in
    match read_config env f with
    | Loaded user_config => ret (update default_config user_config)
    | FileNotFoundError =>
        print (line_config_not_found f) ;; ret default_config
    | JSONDecodeError =>
        print (line_config_invalid f) ;; ret default_config
    end
  else ret default_config.

(** [any(keyword in content for keyword in keywords)] *)
Definition any_keyword_in (keywords : list string) (content : string) : bool :=
  existsb (fun keyword => PyStr.contains keyword content) keywords.

(** [code in codes] *)
Definition code_in (code : Z) (codes : list Z) : bool :=
  existsb (Z.eqb code) codes.

(** The [if]/[elif]/[else] on [method.upper()] that picks the call. *)
Definition http_call (cfg : Config.t) (url method : string)
    (headers : option Headers) (data : option string) : HttpCall :=
  if String.eqb (PyStr.upper method) "GET" then
    requests_get url (Config.timeout cfg) headers
  else if String.eqb (PyStr.upper method) "POST" then
    requests_post url (Config.timeout cfg) headers data
  else
    requests_request method url (Config.timeout cfg) headers data.

(** "Determine application status" *)
Definition determine_status (status_ok has_critical_keyword
    has_success_keyword : bool) : Status :=
  if (status_ok && negb has_critical_keyword)%bool then
    if has_success_keyword then UP else UP
  else DOWN.

(** The body of the [try]: from the response to the [return]. *)
Definition on_response (env : Env) (cfg : Config.t) (name url : string)
    (start_time : PyFloat.t) (code : Z) (text : string)
  : M (option Result.t) :=
  now <- read_clock (time_time env) ;;
  let response_time :=
    PyFloat.round_to 2
      (PyFloat.mul (PyFloat.sub now start_time) (PyFloat.of_int 1000)) in
  let status_ok := code_in code (Config.expected_status_codes cfg) in
  let content := PyStr.lower text in
  let has_critical_keyword :=
    any_keyword_in (Config.critical_keywords cfg) content in
  let has_success_keyword :=
    any_keyword_in (Config.success_keywords cfg) content in
  let status :=
    determine_status status_ok has_critical_keyword has_success_keyword in
  stamp <- read_clock (now_isoformat env) ;;
  let result :=
    {| Result.name := name;
       Result.url := url;
       Result.status := status;
       Result.status_code := Some code;
       Result.response_time_ms := Some response_time;
       Result.timestamp := stamp;
       Result.content_analysis :=
         Some {| has_critical_keywords := has_critical_keyword;
                 has_success_keywords := has_success_keyword |};
       Result.error := None |} in
  append_result result ;;
  print (line_result status name code response_time) ;;
  ret (Some result).

(** The [else] of the handler: the result of a transport failure. *)
Definition on_last_failure (env : Env) (name url e : string)
  : M (option Result.t) :=
  stamp <- read_clock (now_isoformat env) ;;
  let result :=
    {| Result.name := name;
       Result.url := url;
       Result.status := DOWN;
       Result.status_code := None;
       Result.response_time_ms := None;
       Result.timestamp := stamp;
       Result.content_analysis := None;
       Result.error := Some e |} in
  append_result result ;;
  print (line_down_error name e) ;;
  ret (Some result).

(** The [for attempt in range(...)] loop, over the attempts still to run.
    When the list runs out the function falls off its end and returns
    [None]. *)
Fixpoint attempts (env : Env) (cfg : Config.t) (name url method : string)
    (headers : option Headers) (data : option string) (todo : list Z)
  : M (option Result.t) :=
  match todo with
  | [] => ret None
  | attempt :: rest =>
      start_time <- read_clock (time_time env) ;;
      outcome <- request env (http_call cfg url method headers data) ;;
      match outcome with
      | Response code text =>
          on_response env cfg name url start_time code text
      | RequestException e =>
          if attempt <? Config.retry_attempts cfg - 1 then
            print (line_retrying (attempt + 1) name) ;;
            sleep (Config.retry_delay cfg) ;;
            attempts env cfg name url method headers data rest
          else
            on_last_failure env name url e
      | OtherException e => raise (OtherError e)
      end
  end.

Definition check_application (env : Env) (cfg : Config.t) (url : string)
    (name : option string) (method : string) (headers : option Headers)
    (data : option string) : M (option Result.t) :=
  let name := or_default name url in
  print (line_checking name) ;;
  attempts env cfg name url method headers data
    (PyNum.range (Config.retry_attempts cfg)).

(** The call of [check_application] with the entry's keys as keyword
    arguments; a key left out takes the default of the signature. *)
Definition check_app (env : Env) (cfg : Config.t) (app : App.t)
  : M (option Result.t) :=
  check_application env cfg (App.url app) (App.name app)
    (or_default (App.method app) "GET") (App.headers app) (App.data app).

(** [for x in xs: body(x)] *)
Fixpoint for_each {A B} (xs : list A) (body : A -> M B) : M unit :=
  match xs with
  | [] => ret tt
  | x :: xs' => body x ;; for_each xs' body
  end.

Definition is_up (r : Result.t) : bool := Status_eqb (Result.status r) UP.
Definition is_down (r : Result.t) : bool := Status_eqb (Result.status r) DOWN.

(** [[r['response_time_ms'] for r in results
      if r['status'] == 'UP' and r['response_time_ms']]] *)
Fixpoint up_times_of (rs : list Result.t) : list PyFloat.t :=
  match rs with
  | [] => []
  | r :: rs' =>
      match Result.response_time_ms r with
      | Some t =>
          if (is_up r && PyFloat.truthy t)%bool then t :: up_times_of rs'
          else up_times_of rs'
      | None => up_times_of rs'
      end
  end.

Definition len {A} (l : list A) : Z := Z.of_nat (List.length l).

(** [app.get('error', 'Unknown error')] *)
Definition error_or_unknown (r : Result.t) : string :=
  or_default (Result.error r) "Unknown error".

Definition generate_report : M bool :=
  results <- get_results ;;
  let total_checks := len results in
  let up_checks := len (filter is_up results) in
  let down_checks := total_checks - up_checks in
  print line_summary ;;
  print (line_total total_checks) ;;
  print (line_up up_checks) ;;
  print (line_down down_checks) ;;
  ratio <- true_div up_checks total_checks ;;
  print (line_success_rate
           (PyFloat.format_f 1 (PyFloat.mul ratio (PyFloat.of_int 100)))) ;;
  let up_times := up_times_of results in
  match up_times with
  | [] => ret tt
  | t :: ts =>
      avg_time <- float_div (PyFloat.sum up_times) (len up_times) ;;
      let max_time := PyFloat.max_from t ts in
      let min_time := PyFloat.min_from t ts in
      print (line_response_times (PyFloat.format_f 2 avg_time)
               (PyFloat.format_f 2 min_time) (PyFloat.format_f 2 max_time))
  end ;;
  let down_apps := filter is_down results in
  match down_apps with
  | [] => ret tt
  | _ :: _ =>
      print line_down_applications ;;
      for_each down_apps
        (fun app => print (line_down_app (Result.name app)
                             (error_or_unknown app)))
  end ;;
  ret (up_checks =? total_checks).

Definition check_multiple_applications (env : Env) (cfg : Config.t)
    (applications : list App.t) : M unit :=
  print line_starting ;;
  print line_rule ;;
  for_each applications (check_app env cfg) ;;
  print line_rule ;;
  generate_report ;;
  ret tt.

Definition send_alert (env : Env) (cfg : Config.t) (subject message : string)
  : M unit :=
  if negb (PyStr.truthy (Config.alert_email cfg)) then ret tt
  else
    let address := or_default (Config.alert_email cfg) "" in
    let msg :=
      {| mail_from := address;
         mail_to := address;
         mail_subject := subject;
         mail_body := message;
         mail_server := Config.smtp_server cfg;
         mail_port := Config.smtp_port cfg |} in
    match smtp env msg with
    | None => emit (Mailed msg) ;; print (line_alert_sent address)
    | Some e => print (line_alert_failed e)
    end.

Definition save_results (env : Env) (filename : option string) : M unit :=
  filename <-
    match filename with
    | Some f => ret f
    | None =>
        stamp <- read_clock (now_strftime env) ;;
        ret ("health_check_" ++ stamp ++ ".json")
    end ;;
  results <- get_results ;;
  match write_file env filename with
  | None => emit (Saved filename results) ;; print (line_saved filename)
  | Some e => raise (OtherError e)
  end.

Definition newline : string := String (ascii_of_nat 10) EmptyString.

(** The emoji U+1F6A8 that opens the subject of the alert, as the four
    bytes of its UTF-8 form. *)
Definition siren : string :=
  String (ascii_of_nat 240) (String (ascii_of_nat 159)
    (String (ascii_of_nat 154) (String (ascii_of_nat 168) EmptyString))).

(** The subject and the body of the alert. *)
Definition alert_subject (down_apps : list Result.t) : string :=
  siren ++ " Application Health Alert - "
    ++ PyNum.format_int (len down_apps) ++ " apps down".

Definition alert_message (down_apps : list Result.t) : string :=
  fold_left
    (fun message app =>
       message ++ "- " ++ Result.name app ++ ": " ++ error_or_unknown app
         ++ newline)
    down_apps
    ("The following applications are down:" ++ newline).

Definition app_of_url (url : string) : App.t :=
  {| App.url := url; App.name := None; App.method := None;
     App.headers := None; App.data := None |}.

Definition named_app (url name : string) : App.t :=
  {| App.url := url; App.name := Some name; App.method := None;
     App.headers := None; App.data := None |}.

Definition default_applications : list App.t :=
  [ named_app "http://localhost:30007" "WiseCow App";
    named_app "https://httpbin.org/status/200" "HTTPBin Test";
    named_app "https://google.com" "Google" ].

(** [self.results = []] in [__init__] *)
Definition init_results : M unit :=
  fun w => (Return tt,
            {| results := []; requests := requests w; clock := clock w;
               events := events w |}).

(** [sys.exit(code)] *)
Definition sys_exit {A} (code : Z) : M A := raise (SystemExit code).

Definition load_applications (env : Env) (args : Args.t) : M (list App.t) :=
  if PyStr.truthy (Args.url args) then
    ret [app_of_url (or_default (Args.url args) "")]
  else if PyStr.truthy (Args.file args) then
    let f := or_default (Args.file args) "" in
    match read_applications env f with
    | Loaded applications => ret applications
    | FileNotFoundError => print (line_file_not_found f) ;; sys_exit 1
    | JSONDecodeError => print (line_file_invalid f) ;; sys_exit 1
    end
  else ret default_applications.

Definition main (env : Env) (args : Args.t) : M unit :=
  init_results ;;
  cfg <- load_config env (Args.config args) ;;
  applications <- load_applications env args ;;
  check_multiple_applications env cfg applications ;;
  (if PyStr.truthy (Args.save args) then save_results env (Args.save args)
   else ret tt) ;;
  results <- get_results ;;
  let down_apps := filter is_down results in
  (match down_apps with
   | _ :: _ =>
       if Args.email args then
         send_alert env cfg (alert_subject down_apps)
           (alert_message down_apps)
       else ret tt
   | [] => ret tt
   end) ;;
  sys_exit (match down_apps with [] => 0 | _ :: _ => 1 end).

(** The exit status of the interpreter: the code of [sys.exit], and 1 when
    another exception reaches the top level. *)
Definition exit_status {A} (r : Res A) : Z :=
  match r with
  | Return _ => 0
  | Raise (SystemExit code) => code
  | Raise ZeroDivisionError => 1
  | Raise (OtherError _) => 1
  end.

(** One run of the program. *)
Definition run (env : Env) (args : Args.t) : Res unit * World :=
  main env args fresh.

(** ** Observations on a run *)

Definition is_request (e : Event) : bool :=
  match e with
  | Requested _ => true
  | _ => false
  end.

Definition is_sleep (e : Event) : bool :=
  match e with
  | Slept _ => true
  | _ => false
  end.


(** [n] requests [c] with a sleep of [d] between two in a row. *)
Fixpoint requests_with_sleeps (n : nat) (c : HttpCall) (d : Seconds)
  : list Event :=
  match n with
  | O => []
  | S O => [Requested c]
  | S n' => Requested c :: Slept d :: requests_with_sleeps n' c d
  end.

(** The name and the URL a result must carry for an entry of the list. *)
Definition identity_of_app (a : App.t) : string * string :=
  (or_default (App.name a) (App.url a), App.url a).

Definition identity_of_result (r : Result.t) : string * string :=
  (Result.name r, Result.url r).

Definition present {A} (o : option A) : bool :=
  match o with
  | Some _ => true
  | None => false
  end.

(** The two shapes of a result: the one built after a transport failure
    and the one built from a response. *)
Definition failed (r : Result.t) : Prop :=
  Result.status r = DOWN
  /\ Result.status_code r = None
  /\ Result.response_time_ms r = None
  /\ Result.content_analysis r = None
  /\ exists e, Result.error r = Some e.

Definition answered (cfg : Config.t) (r : Result.t) : Prop :=
  exists code time analysis,
    Result.status_code r = Some code
    /\ Result.response_time_ms r = Some time
    /\ Result.content_analysis r = Some analysis
    /\ Result.error r = None
    /\ Result.status r =
         determine_status (code_in code (Config.expected_status_codes cfg))
           (has_critical_keywords analysis) (has_success_keywords analysis).

Definition list_of_option {A} (o : option A) : list A :=
  match o with
  | Some a => [a]
  | None => []
  end.

(** *** The report, as a function of the results *)

(** [up/total * 100], the exact quotient. *)
Definition success_rate (up total : Z) : Q :=
  (inject_Z up / inject_Z total * 100)%Q.

Definition up_count (rs : list Result.t) : Z := len (filter is_up rs).

Definition summary_lines (rs : list Result.t) : list Line :=
  [ line_summary;
    line_total (len rs);
    line_up (up_count rs);
    line_down (len rs - up_count rs) ].

(** [up/total * 100] as the program computes it. *)
Definition float_rate (up total : Z) : PyFloat.t :=
  PyFloat.mul (PyFloat.int_div up total) (PyFloat.of_int 100).

Definition response_time_lines (times : list PyFloat.t) : list Line :=
  match times with
  | [] => []
  | t :: ts =>
      [ line_response_times
          (PyFloat.format_f 2
             (PyFloat.div (PyFloat.sum times) (PyFloat.of_int (len times))))
          (PyFloat.format_f 2 (PyFloat.min_from t ts))
          (PyFloat.format_f 2 (PyFloat.max_from t ts)) ]
  end.

Definition down_lines (down_apps : list Result.t) : list Line :=
  match down_apps with
  | [] => []
  | _ :: _ =>
      line_down_applications
        :: map (fun app => line_down_app (Result.name app)
                             (error_or_unknown app)) down_apps
  end.

Definition report_lines (rs : list Result.t) : list Line :=
  (summary_lines rs
     ++ [line_success_rate
           (PyFloat.format_f 1 (float_rate (up_count rs) (len rs)))]
     ++ response_time_lines (up_times_of rs)
     ++ down_lines (filter is_down rs))%list.

(** The response times of the results that are UP and carry a response
    time, whatever its value. *)
Fixpoint present_up_times (rs : list Result.t) : list PyFloat.t :=
  match rs with
  | [] => []
  | r :: rs' =>
      match Result.status r, Result.response_time_ms r with
      | UP, Some t => t :: present_up_times rs'
      | _, _ => present_up_times rs'
      end
  end.

(** The world after more events. *)
Definition with_events (w : World) (new : list Event) : World :=
  {| results := results w; requests := requests w; clock := clock w;
     events := (events w ++ new)%list |}.

(** ** Sample runs *)

(** An environment with the given network and clock, without files to
    read, where every file can be written and the mail server accepts
    everything. *)
Definition sample_env (net : nat -> HttpCall -> Outcome)
    (time : nat -> PyFloat.t) : Env :=
  {| http := net;
     time_time := time;
     now_isoformat := fun _ => "2024-05-01T12:00:00";
     now_strftime := fun _ => "20240501_120000";
     read_config := fun _ => FileNotFoundError;
     read_applications := fun _ => FileNotFoundError;
     write_file := fun _ => None;
     smtp := fun _ => None |}.

(** A clock that advances 12.345 ms per reading. *)
Definition ticking : nat -> PyFloat.t :=
  fun n => PyFloat.mul (PyFloat.of_int (Z.of_nat n))
             (PyFloat.int_div 12345 1000000).

(** A clock too coarse to see a request pass. *)
Definition coarse : nat -> PyFloat.t := fun _ => PyFloat.zero.

Definition unreachable : Env :=
  sample_env (fun _ _ => RequestException "Connection refused") ticking.

Definition answering (code : Z) (text : string) : Env :=
  sample_env (fun _ _ => Response code text) ticking.

(** The first request fails, the following ones are answered. *)
Definition flaky (code : Z) (text : string) : Env :=
  sample_env (fun n _ => match n with
                         | O => RequestException "Read timed out"
                         | S _ => Response code text
                         end) ticking.

Definition with_retry_attempts (n : Z) (cfg : Config.t) : Config.t :=
  update cfg
    {| Overrides.timeout := None; Overrides.retry_attempts := Some n;
       Overrides.retry_delay := None;
       Overrides.expected_status_codes := None;
       Overrides.critical_keywords := None;
       Overrides.success_keywords := None; Overrides.alert_email := None;
       Overrides.smtp_server := None; Overrides.smtp_port := None |}.

Definition with_critical_keywords (ks : list string) (cfg : Config.t)
  : Config.t :=
  update cfg
    {| Overrides.timeout := None; Overrides.retry_attempts := None;
       Overrides.retry_delay := None;
       Overrides.expected_status_codes := None;
       Overrides.critical_keywords := Some ks;
       Overrides.success_keywords := None; Overrides.alert_email := None;
       Overrides.smtp_server := None; Overrides.smtp_port := None |}.

(** The environment [env] with a target-list file that holds [apps],
    whatever its name. *)
Definition with_applications_file (apps : list App.t) (env : Env) : Env :=
  {| http := http env;
     time_time := time_time env;
     now_isoformat := now_isoformat env;
     now_strftime := now_strftime env;
     read_config := read_config env;
     read_applications := fun _ => Loaded apps;
     write_file := write_file env;
     smtp := smtp env |}.

Definition no_args : Args.t :=
  {| Args.config := None; Args.url := None; Args.file := None;
     Args.save := None; Args.email := false |}.

Definition args_with_file (f : string) : Args.t :=
  {| Args.config := None; Args.url := None; Args.file := Some f;
     Args.save := None; Args.email := false |}.

(** A world whose results are [rs]. *)
Definition holding (rs : list Result.t) : World :=
  {| results := rs; requests := 0; clock := 0; events := [] |}.

Definition sample_up (name : string) (time : PyFloat.t) : Result.t :=
  {| Result.name := name; Result.url := name; Result.status := UP;
     Result.status_code := Some 200; Result.response_time_ms := Some time;
     Result.timestamp := "2024-05-01T12:00:00";
     Result.content_analysis :=
       Some {| has_critical_keywords := false;
               has_success_keywords := true |};
     Result.error := None |}.

Definition sample_down (name : string) (e : string) : Result.t :=
  {| Result.name := name; Result.url := name; Result.status := DOWN;
     Result.status_code := None; Result.response_time_ms := None;
     Result.timestamp := "2024-05-01T12:00:00";
     Result.content_analysis := None;
     Result.error := Some e |}.

(** Two results UP and one DOWN. *)
Definition two_of_three : list Result.t :=
  [ sample_up "a" (PyFloat.int_div 2469 200);
    sample_down "b" "Read timed out";
    sample_up "c" (PyFloat.int_div 617 50) ].

(** ** More observations *)

(** How many of the events are requests, and how many are sleeps. *)
Definition count_requests (es : list Event) : nat :=
  List.length (filter is_request es).

Definition count_sleeps (es : list Event) : nat :=
  List.length (filter is_sleep es).

(** The events a check may cause: lines, requests and sleeps. *)
Definition is_check_event (e : Event) : bool :=
  match e with
  | Printed _ | Requested _ | Slept _ => true
  | Saved _ _ | Mailed _ => false
  end.

(** What [check_application] guarantees of a result by its status. *)
Definition up_invariant (cfg : Config.t) (r : Result.t) : Prop :=
  Result.status r = UP ->
  exists code time analysis,
    Result.status_code r = Some code
    /\ In code (Config.expected_status_codes cfg)
    /\ Result.response_time_ms r = Some time
    /\ Result.content_analysis r = Some analysis
    /\ has_critical_keywords analysis = false
    /\ Result.error r = None.

Definition down_invariant (cfg : Config.t) (r : Result.t) : Prop :=
  Result.status r = DOWN ->
  (Result.status_code r = None
   /\ Result.response_time_ms r = None
   /\ Result.content_analysis r = None
   /\ exists e, Result.error r = Some e)
  \/ (exists code analysis,
        Result.status_code r = Some code
        /\ Result.content_analysis r = Some analysis
        /\ Result.error r = None
        /\ (~ In code (Config.expected_status_codes cfg)
            \/ has_critical_keywords analysis = true)).

(** The lines of a report that name a DOWN application. *)
Definition is_down_app_line (l : Line) : bool :=
  match l with
  | line_down_app _ _ => true
  | _ => false
  end.

Definition down_app_line (r : Result.t) : Line :=
  line_down_app (Result.name r) (error_or_unknown r).

(** *** The run, piece by piece *)

(** The configuration that [load_config] returns. *)
Definition config_of (env : Env) (config_file : option string) : Config.t :=
  if PyStr.truthy config_file then
    match read_config env (or_default config_file "") with
    | Loaded user_config => update default_config user_config
    | FileNotFoundError | JSONDecodeError => default_config
    end
  else default_config.

(** The applications that [main] goes on to check; [None] when it exits
    at the target-list file. *)
Definition applications_of (env : Env) (args : Args.t)
  : option (list App.t) :=
  if PyStr.truthy (Args.url args) then
    Some [app_of_url (or_default (Args.url args) "")]
  else if PyStr.truthy (Args.file args) then
    match read_applications env (or_default (Args.file args) "") with
    | Loaded applications => Some applications
    | FileNotFoundError | JSONDecodeError => None
    end
  else Some default_applications.

(** The lines of [main] that follow the checks: saving, alerting and the
    exit. *)
Definition finish (env : Env) (cfg : Config.t) (args : Args.t) : M unit :=
  (if PyStr.truthy (Args.save args) then save_results env (Args.save args)
   else ret tt) ;;
  results <- get_results ;;
  let down_apps := filter is_down results in
  (match down_apps with
   | _ :: _ =>
       if Args.email args then
         send_alert env cfg (alert_subject down_apps)
           (alert_message down_apps)
       else ret tt
   | [] => ret tt
   end) ;;
  sys_exit (match down_apps with [] => 0 | _ :: _ => 1 end).

(** The lines of [main] that follow the loading of the configuration. *)
Definition main_after_config (env : Env) (args : Args.t) (cfg : Config.t)
  : M unit :=
  applications <- load_applications env args ;;
  check_multiple_applications env cfg applications ;;
  finish env cfg args.

(** The message that [send_alert] hands to the mail server for the DOWN
    results [down_apps]. *)
Definition alert_mail (cfg : Config.t) (down_apps : list Result.t) : Mail :=
  {| mail_from := or_default (Config.alert_email cfg) "";
     mail_to := or_default (Config.alert_email cfg) "";
     mail_subject := alert_subject down_apps;
     mail_body := alert_message down_apps;
     mail_server := Config.smtp_server cfg;
     mail_port := Config.smtp_port cfg |}.

(** What saving adds to the events of a run that ends with the results
    [rs], and what alerting adds. *)
Definition save_events (args : Args.t) (rs : list Result.t) : list Event :=
  if PyStr.truthy (Args.save args) then
    [ Saved (or_default (Args.save args) "") rs;
      Printed (line_saved (or_default (Args.save args) "")) ]
  else [].

Definition alert_events (env : Env) (cfg : Config.t) (args : Args.t)
    (rs : list Result.t) : list Event :=
  match filter is_down rs with
  | [] => []
  | down_apps =>
      if (Args.email args && PyStr.truthy (Config.alert_email cfg))%bool then
        match smtp env (alert_mail cfg down_apps) with
        | None =>
            [ Mailed (alert_mail cfg down_apps);
              Printed (line_alert_sent
                         (or_default (Config.alert_email cfg) "")) ]
        | Some e => [Printed (line_alert_failed e)]
        end
      else []
  end.

(** The command line [args] without its [--config]. *)
Definition without_config (args : Args.t) : Args.t :=
  {| Args.config := None; Args.url := Args.url args;
     Args.file := Args.file args; Args.save := Args.save args;
     Args.email := Args.email args |}.

(** Two worlds that differ in their past events at most. *)
Definition same_state (w1 w2 : World) : Prop :=
  results w1 = results w2 /\ requests w1 = requests w2
  /\ clock w1 = clock w2.

(** A computation that does not look at the past events: from two worlds
    with the same state it has the same outcome, reaches the same state
    and causes the same events. *)
Definition blind {A} (m : M A) : Prop :=
  forall w1 w2, same_state w1 w2 ->
    exists a new w1' w2',
      m w1 = (a, w1') /\ m w2 = (a, w2')
      /\ same_state w1' w2'
      /\ events w1' = (events w1 ++ new)%list
      /\ events w2' = (events w2 ++ new)%list.

(** The environment [env] with a configuration file that holds
    [user_config], whatever its name. *)
Definition with_config_file (user_config : Overrides.t) (env : Env) : Env :=
  {| http := http env;
     time_time := time_time env;
     now_isoformat := now_isoformat env;
     now_strftime := now_strftime env;
     read_config := fun _ => Loaded user_config;
     read_applications := read_applications env;
     write_file := write_file env;
     smtp := smtp env |}.

(** A configuration file that sets the address of the alerts and nothing
    else. *)
Definition alerting (address : string) : Overrides.t :=
  {| Overrides.timeout := None; Overrides.retry_attempts := None;
     Overrides.retry_delay := None;
     Overrides.expected_status_codes := None;
     Overrides.critical_keywords := None;
     Overrides.success_keywords := None;
     Overrides.alert_email := Some (Some address);
     Overrides.smtp_server := None; Overrides.smtp_port := None |}.

(** [-c config.json -u http://localhost:30007 -f missing.json -s out.json
    --email] *)
Definition full_args : Args.t :=
  {| Args.config := Some "config.json";
     Args.url := Some "http://localhost:30007";
     Args.file := Some "missing.json";
     Args.save := Some "out.json";
     Args.email := true |}.

(** The line of the alert for one DOWN result. *)
Definition alert_entry (app : Result.t) : string :=
  "- " ++ Result.name app ++ ": " ++ or_default (Result.error app)
    "Unknown error" ++ newline.

(** *** Environments and what they let through *)

(** An environment whose requests are all answered or fail in transport:
    none raises an exception that [check_application] does not catch. *)
Definition quiet (env : Env) : Prop :=
  forall n c e, http env n c <> OtherException e.

(** The exception that saving raises under the command line [args], if
    there is one. *)
Definition save_error (env : Env) (args : Args.t) : option string :=
  if PyStr.truthy (Args.save args)
  then write_file env (or_default (Args.save args) "")
  else None.

(** What the last lines of [main] add to the events of a run that ends
    with the results [rs]: nothing when saving raises. *)
Definition end_events (env : Env) (cfg : Config.t) (args : Args.t)
    (rs : list Result.t) : list Event :=
  match save_error env args with
  | Some _ => []
  | None => save_events args rs ++ alert_events env cfg args rs
  end.

(** The results a check adds, by its outcome. *)
Definition returned (outcome : Res (option Result.t)) : list Result.t :=
  match outcome with
  | Return o => list_of_option o
  | Raise _ => []
  end.

Definition timeout_of (c : HttpCall) : Seconds :=
  match c with
  | requests_get _ timeout _ => timeout
  | requests_post _ timeout _ _ => timeout
  | requests_request _ _ timeout _ _ => timeout
  end.

(** A network that answers 200, and where a request with a timeout of
    zero raises the [ValueError] of the library. *)
Definition strict_on_timeout : Env :=
  sample_env
    (fun _ c =>
       match sec_num (timeout_of c) with
       | N0 =>
           OtherException
             "Attempted to set connect timeout to 0, but the timeout cannot be set to a value less than or equal to 0."
       | Npos _ => Response 200 "OK"
       end)
    ticking.

Definition with_timeout (seconds : Seconds) (cfg : Config.t) : Config.t :=
  update cfg
    {| Overrides.timeout := Some seconds; Overrides.retry_attempts := None;
       Overrides.retry_delay := None;
       Overrides.expected_status_codes := None;
       Overrides.critical_keywords := None;
       Overrides.success_keywords := None; Overrides.alert_email := None;
       Overrides.smtp_server := None; Overrides.smtp_port := None |}.



(** *** The success rate as a float and as a fraction *)

(** The distance allowed between the float and the exact rate: the
    rounding errors of one division and one multiplication, the result
    being at most 100. *)
Definition rate_tolerance : Q := 1 # 10000000000000.

Definition rate_is_close (up total : Z) : bool :=
  (Qle_bool (success_rate up total - rate_tolerance)
     (PyFloat.magnitude (float_rate up total))
   && Qle_bool (PyFloat.magnitude (float_rate up total))
        (success_rate up total + rate_tolerance))%bool.

(** The check of [rate_is_close] for every total from 1 to [bound] and
    every number UP from 0 to the total. *)
Definition rates_are_close (bound : nat) : bool :=
  forallb
    (fun total =>
       forallb (fun up => rate_is_close (Z.of_nat up) (Z.of_nat (S total)))
         (seq 0 (S (S total))))
    (seq 0 bound).
(** * Properties *)

(** ** Strings and numbers *)

Example lower_example : PyStr.lower "Database ERROR 42" = "database error 42".
Proof. reflexivity. Qed.

Example contains_example :
  PyStr.contains "error" "database error occurred" = true
  /\ PyStr.contains "" "" = true
  /\ PyStr.contains "down" "up" = false.
Proof. repeat split. Qed.

Example format_examples :
  PyFloat.format_f 1 (PyFloat.int_div 1 16) = "0.1"
  /\ PyFloat.format_f 2 (PyFloat.int_div 1 8) = "0.12"
  /\ PyFloat.format_f 2 (PyFloat.int_div 3 8) = "0.38"
  /\ PyFloat.format_f 1 (PyFloat.int_div (-1) 100) = "-0.0"
  /\ PyFloat.format_f 2 (PyFloat.round_to 2 (PyFloat.int_div 12345 1000))
     = "12.35"
  /\ PyNum.format_int 12 = "12".
Proof. repeat split. Qed.

Lemma prefix_occurs (needle hay : string) :
  prefix needle hay = true <-> exists post, hay = needle ++ post.
Proof.
  revert hay; induction needle as [|c needle IH]; intros hay.
  - split; [intros _; now exists hay | intros _; now destruct hay].
  - destruct hay as [|d hay]; simpl.
    + split; [discriminate | intros [post H]; discriminate].
    + destruct (ascii_dec c d) as [->|Hcd].
      * rewrite IH. split; intros [post H]; exists post.
        -- now rewrite H.
        -- now inversion H.
      * split; [discriminate | intros [post H]; inversion H; congruence].
Qed.

(** [needle in hay] decides occurrence as a substring. *)
Lemma contains_occurs (needle hay : string) :
  PyStr.contains needle hay = true <-> PyStr.occurs_in needle hay.
Proof.
  unfold PyStr.occurs_in.
  induction hay as [|d hay IH].
  - cbn [PyStr.contains]. destruct (prefix needle "") eqn:Hp.
    + split; [intros _ | intros _; reflexivity].
      apply prefix_occurs in Hp as [post Hp]. now exists "", post.
    + split; [discriminate | intros [pre [post H]]].
      destruct pre; [|discriminate]. simpl in H.
      assert (prefix needle "" = true) by (apply prefix_occurs; now exists post).
      congruence.
  - cbn [PyStr.contains]. destruct (prefix needle (String d hay)) eqn:Hp.
    + split; [intros _ | intros _; reflexivity].
      apply prefix_occurs in Hp as [post Hp]. now exists "", post.
    + rewrite IH. split.
      * intros [pre [post H]]. exists (String d pre), post. simpl. now rewrite H.
      * intros [pre [post H]]. destruct pre as [|c pre].
        -- simpl in H.
           assert (prefix needle (String d hay) = true)
             by (apply prefix_occurs; now exists post).
           congruence.
        -- simpl in H. inversion H. now exists pre, post.
Qed.

Lemma any_keyword_in_spec (keywords : list string) (content : string) :
  any_keyword_in keywords content = true
  <-> exists keyword, In keyword keywords /\ PyStr.occurs_in keyword content.
Proof.
  unfold any_keyword_in. rewrite existsb_exists.
  split; intros [k [Hin Hk]]; exists k; split; auto; now apply contains_occurs.
Qed.

Lemma code_in_spec (code : Z) (codes : list Z) :
  code_in code codes = true <-> In code codes.
Proof.
  unfold code_in. rewrite existsb_exists. split.
  - intros [c [Hin Hc]]. apply Z.eqb_eq in Hc. now subst.
  - intros Hin. exists code. split; [assumption | apply Z.eqb_refl].
Qed.

Lemma range_nonpos (n : Z) : n <= 0 -> PyNum.range n = [].
Proof.
  intros Hn. unfold PyNum.range.
  replace (Z.to_nat n) with 0%nat by lia. reflexivity.
Qed.

Lemma range_length (n : Z) : List.length (PyNum.range n) = Z.to_nat n.
Proof. unfold PyNum.range. now rewrite length_map, length_seq. Qed.

(** ** The retry loop *)

Ltac py_run :=
  unfold bind, ret, sys_exit, raise, print, sleep, emit, append_result,
    read_clock, request, get_results, init_results;
  cbn [fst snd results requests clock events].

Section Loop.

Variable env : Env.
Variable cfg : Config.t.
Variables name url method : string.
Variable headers : option Headers.
Variable data : option string.

Let call := http_call cfg url method headers data.
Let loop := attempts env cfg name url method headers data.

(** A response ends the loop at once with a result of the answered
    shape. *)
Lemma on_response_run (start_time : PyFloat.t) (code : Z) (text : string)
    (w : World) :
  exists r,
    on_response env cfg name url start_time code text w =
      (Return (Some r),
       {| results := results w ++ [r];
          requests := requests w;
          clock := S (S (clock w));
          events := events w ++
            [Printed (line_result (Result.status r) name code
               (PyFloat.round_to 2
                  (PyFloat.mul
                     (PyFloat.sub (time_time env (clock w)) start_time)
                     (PyFloat.of_int 1000))))] |})
    /\ Result.name r = name /\ Result.url r = url
    /\ Result.status_code r = Some code
    /\ Result.response_time_ms r =
         Some (PyFloat.round_to 2
                  (PyFloat.mul
                     (PyFloat.sub (time_time env (clock w)) start_time)
                     (PyFloat.of_int 1000)))
    /\ Result.error r = None
    /\ Result.content_analysis r =
         Some {| has_critical_keywords :=
                   any_keyword_in (Config.critical_keywords cfg)
                     (PyStr.lower text);
                 has_success_keywords :=
                   any_keyword_in (Config.success_keywords cfg)
                     (PyStr.lower text) |}
    /\ Result.status r =
         determine_status (code_in code (Config.expected_status_codes cfg))
           (any_keyword_in (Config.critical_keywords cfg) (PyStr.lower text))
           (any_keyword_in (Config.success_keywords cfg) (PyStr.lower text)).
Proof.
  unfold on_response. py_run.
  eexists; split; [apply f_equal2; reflexivity|].
  cbn [Result.name Result.url Result.status Result.status_code
       Result.response_time_ms Result.error Result.content_analysis].
  repeat split.
Qed.

Lemma on_last_failure_run (e : string) (w : World) :
  exists r,
    on_last_failure env name url e w =
      (Return (Some r),
       {| results := results w ++ [r];
          requests := requests w;
          clock := S (clock w);
          events := events w ++ [Printed (line_down_error name e)] |})
    /\ Result.name r = name /\ Result.url r = url
    /\ Result.status r = DOWN
    /\ Result.status_code r = None
    /\ Result.response_time_ms r = None
    /\ Result.content_analysis r = None
    /\ Result.error r = Some e.
Proof.
  unfold on_last_failure. py_run.
  eexists; split; [reflexivity|]. cbn. repeat split.
Qed.

Lemma attempts_response (attempt : Z) (rest : list Z) (w : World)
    (code : Z) (text : string) :
  http env (requests w) call = Response code text ->
  loop (attempt :: rest) w =
    on_response env cfg name url (time_time env (clock w)) code text
      {| results := results w;
         requests := S (requests w);
         clock := S (clock w);
         events := events w ++ [Requested call] |}.
Proof.
  intros H. unfold loop. cbn [attempts]. py_run. fold call. now rewrite H.
Qed.

Lemma attempts_retry (attempt : Z) (rest : list Z) (w : World) (e : string) :
  http env (requests w) call = RequestException e ->
  attempt < Config.retry_attempts cfg - 1 ->
  loop (attempt :: rest) w =
    loop rest
      {| results := results w;
         requests := S (requests w);
         clock := S (clock w);
         events := events w ++
           [Requested call; Printed (line_retrying (attempt + 1) name);
            Slept (Config.retry_delay cfg)] |}.
Proof.
  intros H Hlt. unfold loop. cbn [attempts]. py_run. fold call. rewrite H.
  apply Z.ltb_lt in Hlt. rewrite Hlt. py_run.
  now rewrite <- !app_assoc.
Qed.

Lemma attempts_give_up (attempt : Z) (rest : list Z) (w : World) (e : string) :
  http env (requests w) call = RequestException e ->
  Config.retry_attempts cfg - 1 <= attempt ->
  loop (attempt :: rest) w =
    on_last_failure env name url e
      {| results := results w;
         requests := S (requests w);
         clock := S (clock w);
         events := events w ++ [Requested call] |}.
Proof.
  intros H Hge. unfold loop. cbn [attempts]. py_run. fold call. rewrite H.
  apply Z.ltb_ge in Hge. now rewrite Hge.
Qed.

Lemma attempts_other (attempt : Z) (rest : list Z) (w : World) (e : string) :
  http env (requests w) call = OtherException e ->
  loop (attempt :: rest) w =
    (Raise (OtherError e),
     {| results := results w;
        requests := S (requests w);
        clock := S (clock w);
        events := events w ++ [Requested call] |}).
Proof.
  intros H. unfold loop. cbn [attempts]. py_run. fold call. now rewrite H.
Qed.

(** Whatever the attempts left and whatever the network does, the loop
    appends what it returns and nothing else, a returned result has one
    of the two shapes, and the loop raises only when a request raises an
    exception that is not a [RequestException]. *)
Lemma attempts_sound (todo : list Z) :
  forall w, exists outcome w',
    loop todo w = (outcome, w')
    /\ results w' = (results w ++ returned outcome)%list
    /\ (quiet env -> exists o, outcome = Return o)
    /\ (forall r, outcome = Return (Some r) ->
         Result.name r = name /\ Result.url r = url
         /\ (failed r \/ answered cfg r))
    /\ forall e, outcome = Raise e -> exists d, e = OtherError d.
Proof.
  induction todo as [|attempt rest IH]; intros w.
  - exists (Return None), w. cbn [returned list_of_option].
    rewrite app_nil_r. repeat split; eauto; discriminate.
  - destruct (http env (requests w) call) as [code text|e|e] eqn:Hout.
    + rewrite (attempts_response _ _ _ _ _ Hout).
      destruct (on_response_run (time_time env (clock w)) code text
                  {| results := results w; requests := S (requests w);
                     clock := S (clock w);
                     events := events w ++ [Requested call] |})
        as [r [Hrun [Hn [Hu [Hc [Ht [He [Ha Hs]]]]]]]].
      rewrite Hrun. eexists; eexists; split; [reflexivity|].
      split; [reflexivity|]. split; [eauto|]. split; [|discriminate].
      intros r' [= <-]. repeat split; auto.
      right. do 3 eexists. repeat split; eauto.
    + destruct (Z.lt_ge_cases attempt (Config.retry_attempts cfg - 1))
        as [Hlt|Hge].
      * rewrite (attempts_retry _ _ _ _ Hout Hlt).
        destruct (IH {| results := results w; requests := S (requests w);
                        clock := S (clock w);
                        events := events w ++
                          [Requested call;
                           Printed (line_retrying (attempt + 1) name);
                           Slept (Config.retry_delay cfg)] |})
          as [o [w' [Hrun [Hres [Hq [Hshape Hexn]]]]]].
        exists o, w'. repeat split; auto; now apply Hshape.
      * rewrite (attempts_give_up _ _ _ _ Hout Hge).
        destruct (on_last_failure_run e
                  {| results := results w; requests := S (requests w);
                     clock := S (clock w);
                     events := events w ++ [Requested call] |})
          as [r [Hrun [Hn [Hu [Hs [Hc [Ht [Ha He]]]]]]]].
        rewrite Hrun. eexists; eexists; split; [reflexivity|].
        split; [reflexivity|]. split; [eauto|]. split; [|discriminate].
        intros r' [= <-]. repeat split; auto.
        left. repeat split; eauto.
    + rewrite (attempts_other _ _ _ _ Hout).
      eexists; eexists; split; [reflexivity|].
      cbn [results returned]. rewrite app_nil_r.
      split; [reflexivity|]. split; [|split; [discriminate|]].
      * intros Hq. now contradiction (Hq (requests w) call e).
      * intros e' [= <-]. eauto.
Qed.

(** With at least one attempt left, the last of them being attempt
    [retry_attempts - 1], the loop does not fall off its end: it returns
    a result, or raises what a request raised. *)
Lemma attempts_return (k : nat) :
  forall i w,
    Z.of_nat (i + S k) = Config.retry_attempts cfg ->
    exists outcome w',
      loop (map Z.of_nat (seq i (S k))) w = (outcome, w')
      /\ outcome <> Return None
      /\ (quiet env -> exists r, outcome = Return (Some r)).
Proof.
  induction k as [|k IH]; intros i w Hn;
    cbn [seq map];
    destruct (http env (requests w) call) as [code text|e|e] eqn:Hout.
  - rewrite (attempts_response _ _ _ _ _ Hout).
    edestruct on_response_run as [r [Hrun _]]. rewrite Hrun.
    do 2 eexists. split; [reflexivity|]. split; [discriminate | eauto].
  - rewrite (attempts_give_up _ _ _ _ Hout) by lia.
    edestruct on_last_failure_run as [r [Hrun _]]. rewrite Hrun.
    do 2 eexists. split; [reflexivity|]. split; [discriminate | eauto].
  - rewrite (attempts_other _ _ _ _ Hout).
    do 2 eexists. split; [reflexivity|]. split; [discriminate|].
    intros Hq. now contradiction (Hq (requests w) call e).
  - rewrite (attempts_response _ _ _ _ _ Hout).
    edestruct on_response_run as [r [Hrun _]]. rewrite Hrun.
    do 2 eexists. split; [reflexivity|]. split; [discriminate | eauto].
  - rewrite (attempts_retry _ _ _ _ Hout) by lia.
    apply (IH (S i)). lia.
  - rewrite (attempts_other _ _ _ _ Hout).
    do 2 eexists. split; [reflexivity|]. split; [discriminate|].
    intros Hq. now contradiction (Hq (requests w) call e).
Qed.


End Loop.

(** ** The report *)

Lemma with_events_nil (w : World) : with_events w [] = w.
Proof. destruct w. unfold with_events. cbn. now rewrite app_nil_r. Qed.

Lemma with_events_app (w : World) (a b : list Event) :
  with_events (with_events w a) b = with_events w (a ++ b).
Proof. unfold with_events. cbn. now rewrite app_assoc. Qed.

Lemma print_run (l : Line) (w : World) :
  print l w = (Return tt, with_events w [Printed l]).
Proof. reflexivity. Qed.

Lemma for_each_print {A} (f : A -> Line) (xs : list A) :
  forall w,
    for_each xs (fun x => print (f x)) w =
      (Return tt, with_events w (map (fun x => Printed (f x)) xs)).
Proof.
  induction xs as [|x xs IH]; intros w; cbn [for_each map].
  - unfold ret. now rewrite with_events_nil.
  - unfold bind. rewrite print_run, IH, with_events_app. reflexivity.
Qed.

Lemma len_zero {A} (l : list A) : len l = 0 <-> l = [].
Proof.
  unfold len. destruct l; cbn [List.length]; split; intros H;
    try reflexivity; try discriminate; lia.
Qed.

Lemma true_div_by_len {A} (a : Z) (l : list A) (w : World) :
  l <> [] ->
  true_div a (len l) w = (Return (PyFloat.int_div a (len l)), w).
Proof.
  intros Hl. unfold true_div.
  destruct (len l =? 0) eqn:H; [|reflexivity].
  apply Z.eqb_eq, len_zero in H. contradiction.
Qed.

Lemma float_div_by_len {A} (x : PyFloat.t) (l : list A) (w : World) :
  l <> [] ->
  float_div x (len l) w
  = (Return (PyFloat.div x (PyFloat.of_int (len l))), w).
Proof.
  intros Hl. unfold float_div.
  destruct (len l =? 0) eqn:H; [|reflexivity].
  apply Z.eqb_eq, len_zero in H. contradiction.
Qed.

(** What [generate_report] does on an empty list of results: it prints
    the counts and raises at the division. *)
Lemma generate_report_empty (w : World) :
  results w = [] ->
  generate_report w =
    (Raise ZeroDivisionError,
     with_events w (map Printed (summary_lines []))).
Proof.
  intros H. unfold generate_report, bind at 1. unfold get_results at 1.
  rewrite H. cbv beta iota.
  repeat (unfold bind at 1; rewrite print_run).
  unfold bind at 1. unfold true_div. cbn [len List.length Z.of_nat Z.eqb].
  unfold raise. rewrite !with_events_app. reflexivity.
Qed.

(** What it does on any other list: it prints [report_lines] and returns
    the comparison of the two counts. *)
Lemma generate_report_nonempty (w : World) :
  results w <> [] ->
  generate_report w =
    (Return (up_count (results w) =? len (results w)),
     with_events w (map Printed (report_lines (results w)))).
Proof.
  intros H. unfold generate_report, bind at 1. unfold get_results at 1.
  cbv beta iota.
  repeat (unfold bind at 1; rewrite print_run).
  unfold bind at 1. rewrite (true_div_by_len _ _ _ H).
  unfold bind at 1. rewrite print_run. rewrite !with_events_app.
  cbn [app results with_events].
  unfold report_lines, summary_lines, up_count, float_rate.
  fold (up_count (results w)).
  set (rs := results w) in *.
  assert (Htimes : forall w0,
            (match up_times_of rs with
             | [] => ret tt
             | t :: ts =>
                 avg_time <- float_div (PyFloat.sum (up_times_of rs))
                                       (len (up_times_of rs)) ;;
                 print (line_response_times (PyFloat.format_f 2 avg_time)
                          (PyFloat.format_f 2 (PyFloat.min_from t ts))
                          (PyFloat.format_f 2 (PyFloat.max_from t ts)))
             end) w0 =
            (Return tt,
             with_events w0
               (map Printed (response_time_lines (up_times_of rs))))).
  { intros w0. destruct (up_times_of rs) as [|t ts] eqn:Ht.
    - unfold ret. cbn. now rewrite with_events_nil.
    - unfold bind. rewrite float_div_by_len by discriminate.
      rewrite print_run. reflexivity. }
  assert (Hdown : forall w0,
            (match filter is_down rs with
             | [] => ret tt
             | _ :: _ =>
                 print line_down_applications ;;
                 for_each (filter is_down rs)
                   (fun app => print (line_down_app (Result.name app)
                                        (error_or_unknown app)))
             end) w0 =
            (Return tt,
             with_events w0 (map Printed (down_lines (filter is_down rs))))).
  { intros w0. destruct (filter is_down rs) as [|d ds] eqn:Hd.
    - unfold ret. cbn. now rewrite with_events_nil.
    - unfold bind. rewrite print_run, for_each_print, with_events_app.
      unfold down_lines. cbn [map app]. rewrite map_map. reflexivity. }
  unfold bind at 1. rewrite Htimes.
  unfold bind at 1. rewrite Hdown.
  unfold ret. rewrite !with_events_app.
  unfold with_events at 1. cbn [results requests clock events].
  unfold with_events. rewrite !map_app. cbn [map app].
  reflexivity.
Qed.

(** ** One check *)

Lemma range_pos (n : Z) :
  1 <= n -> PyNum.range n = map Z.of_nat (seq 0 (S (Z.to_nat n - 1))).
Proof.
  intros Hn. unfold PyNum.range.
  now replace (S (Z.to_nat n - 1)) with (Z.to_nat n) by lia.
Qed.

Lemma check_application_unfold (env : Env) (cfg : Config.t) (url : string)
    (name : option string) (method : string) (headers : option Headers)
    (data : option string) (w : World) :
  check_application env cfg url name method headers data w =
    attempts env cfg (or_default name url) url method headers data
      (PyNum.range (Config.retry_attempts cfg))
      (with_events w [Printed (line_checking (or_default name url))]).
Proof. reflexivity. Qed.

(** A check raises only what a request raised that is not a
    [RequestException]; it appends what it returns, and a result it
    returns is named after the target and has one of the two shapes. *)
Lemma check_application_sound (env : Env) (cfg : Config.t) (url : string)
    (name : option string) (method : string) (headers : option Headers)
    (data : option string) (w : World) :
  exists outcome w',
    check_application env cfg url name method headers data w = (outcome, w')
    /\ results w' = (results w ++ returned outcome)%list
    /\ (quiet env -> exists o, outcome = Return o)
    /\ (forall r, outcome = Return (Some r) ->
         Result.name r = or_default name url /\ Result.url r = url
         /\ (failed r \/ answered cfg r))
    /\ forall e, outcome = Raise e -> exists d, e = OtherError d.
Proof.
  rewrite check_application_unfold.
  destruct (attempts_sound env cfg (or_default name url) url method headers
              data (PyNum.range (Config.retry_attempts cfg))
              (with_events w [Printed (line_checking (or_default name url))]))
    as [o [w' [Hrun [Hres [Hq [Hshape Hexn]]]]]].
  exists o, w'. auto.
Qed.

(** With at least one attempt configured, a check does not return
    [None]: it returns a result, or raises what a request raised. *)
Lemma check_application_returns (env : Env) (cfg : Config.t) (url : string)
    (name : option string) (method : string) (headers : option Headers)
    (data : option string) (w : World) :
  1 <= Config.retry_attempts cfg ->
  exists outcome w',
    check_application env cfg url name method headers data w = (outcome, w')
    /\ outcome <> Return None
    /\ (quiet env -> exists r, outcome = Return (Some r)).
Proof.
  intros Hn. rewrite check_application_unfold, (range_pos _ Hn).
  apply attempts_return. lia.
Qed.


Lemma requests_with_sleeps_sleeps (n : nat) (c : HttpCall) (d : Seconds) :
  filter is_sleep (requests_with_sleeps n c d) = repeat (Slept d) (n - 1).
Proof.
  induction n as [|n IH]; [reflexivity|].
  destruct n as [|n]; [reflexivity|].
  change (requests_with_sleeps (S (S n)) c d)
    with (Requested c :: Slept d :: requests_with_sleeps (S n) c d).
  cbn [filter is_sleep]. rewrite IH.
  now replace (S (S n) - 1)%nat with (S (S n - 1)) by lia.
Qed.


(** ** Several checks *)

(** The loop over the applications stops at the first check that raises.
    It appends the results of its checks in the order of the list; when
    it comes to its end there is one per application if at least one
    attempt is configured, and it comes to its end when no request
    raises anything but a [RequestException].  Without an attempt
    configured it appends nothing and comes to its end. *)
Lemma for_each_check_app (env : Env) (cfg : Config.t) (apps : list App.t) :
  forall w, exists outcome rs w',
    for_each apps (check_app env cfg) w = (outcome, w')
    /\ results w' = (results w ++ rs)%list
    /\ (forall r, In r rs -> failed r \/ answered cfg r)
    /\ (List.length rs <= List.length apps)%nat
    /\ (quiet env -> outcome = Return tt)
    /\ (outcome = Return tt -> 1 <= Config.retry_attempts cfg ->
        map identity_of_result rs = map identity_of_app apps)
    /\ (Config.retry_attempts cfg <= 0 -> rs = [] /\ outcome = Return tt)
    /\ (1 <= Config.retry_attempts cfg ->
        map identity_of_result rs
        = map identity_of_app (firstn (List.length rs) apps))
    /\ (forall e, outcome = Raise e -> exists d, e = OtherError d).
Proof.
  induction apps as [|a apps IH]; intros w; cbn [for_each].
  - exists (Return tt), [], w. unfold ret. rewrite app_nil_r.
    repeat split; auto; try discriminate. intros r [].
  - unfold bind.
    destruct (check_application_sound env cfg (App.url a) (App.name a)
                (or_default (App.method a) "GET") (App.headers a)
                (App.data a) w) as [o [w1 [Hrun [Hres [Hq [Hshape Hexn]]]]]].
    unfold check_app at 1. rewrite Hrun.
    destruct o as [o|e].
    + destruct (IH w1)
        as [outcome [rs [w' [Hrun' [Hres' [Hshape' [Hlen [Hq' [Hone
             [Hnone [Hpre Hexn']]]]]]]]]]].
      exists outcome, (list_of_option o ++ rs)%list, w'.
      split; [exact Hrun'|].
      split; [now rewrite Hres', Hres, app_assoc|].
      split; [|split; [|split; [|split; [|split; [|split;
        [|exact Hexn']]]]]].
      * intros r [Hr|Hr]%in_app_or; [|now apply Hshape'].
        destruct o as [r0|]; [|contradiction].
        destruct Hr as [<-|[]]. now apply (Hshape r0).
      * rewrite length_app. cbn [List.length].
        destruct o; cbn [list_of_option List.length]; lia.
      * exact Hq'.
      * intros Hout Hn.
        destruct (check_application_returns env cfg (App.url a) (App.name a)
                    (or_default (App.method a) "GET") (App.headers a)
                    (App.data a) w Hn) as [o' [w2 [Hret [Hsome _]]]].
        rewrite Hret in Hrun. injection Hrun as -> ->.
        destruct o as [r|]; [|now contradiction Hsome].
        cbn [list_of_option app map]. rewrite (Hone Hout Hn).
        destruct (Hshape r eq_refl) as [Hname [Hurl _]].
        unfold identity_of_result at 1, identity_of_app at 2.
        now rewrite Hname, Hurl.
      * intros Hn. destruct (Hnone Hn) as [-> ->]. rewrite app_nil_r.
        rewrite check_application_unfold, (range_nonpos _ Hn) in Hrun.
        injection Hrun as <- _. split; reflexivity.
      * intros Hn.
        destruct (check_application_returns env cfg (App.url a) (App.name a)
                    (or_default (App.method a) "GET") (App.headers a)
                    (App.data a) w Hn) as [o' [w2 [Hret [Hsome _]]]].
        rewrite Hret in Hrun. injection Hrun as -> ->.
        destruct o as [r|]; [|now contradiction Hsome].
        cbn [list_of_option app map List.length firstn].
        rewrite (Hpre Hn).
        destruct (Hshape r eq_refl) as [Hname [Hurl _]].
        unfold identity_of_result at 1, identity_of_app at 2.
        now rewrite Hname, Hurl.
    + exists (Raise e), [], w1. cbn [returned] in Hres.
      split; [reflexivity|]. split; [exact Hres|].
      split; [intros r []|]. split; [cbn; lia|].
      split; [intros Hquiet; destruct (Hq Hquiet) as [o Ho]; discriminate Ho|].
      split; [discriminate|].
      split; [|split; [reflexivity|]].
      * intros Hn.
        rewrite check_application_unfold, (range_nonpos _ Hn) in Hrun.
        discriminate Hrun.
      * intros e' [= <-]. now apply Hexn.
Qed.

Lemma generate_report_results (w : World) :
  results (snd (generate_report w)) = results w.
Proof.
  destruct (results w) as [|r rs] eqn:Hrs.
  - now rewrite generate_report_empty.
  - rewrite generate_report_nonempty by (rewrite Hrs; discriminate).
    exact Hrs.
Qed.

(** The report prints lines, and raises exactly when there is no
    result. *)
Lemma generate_report_run (w : World) :
  exists lines,
    snd (generate_report w) = with_events w (map Printed lines)
    /\ fst (generate_report w)
       = match results w with
         | [] => Raise ZeroDivisionError
         | _ :: _ => Return (up_count (results w) =? len (results w))
         end.
Proof.
  destruct (results w) as [|r rs] eqn:Hrs.
  - rewrite generate_report_empty by exact Hrs. cbn [fst snd]. eauto.
  - rewrite generate_report_nonempty by (rewrite Hrs; discriminate).
    rewrite Hrs. cbn [fst snd]. eauto.
Qed.

(** [check_multiple_applications] is its loop followed, unless the loop
    raised, by the report. *)
Lemma check_multiple_applications_run (env : Env) (cfg : Config.t)
    (apps : list App.t) (w : World) :
  exists outcome w1,
    for_each apps (check_app env cfg)
      (with_events w [Printed line_starting; Printed line_rule])
      = (outcome, w1)
    /\ check_multiple_applications env cfg apps w =
         match outcome with
         | Return _ =>
             (match fst (generate_report
                           (with_events w1 [Printed line_rule])) with
              | Return _ => Return tt
              | Raise e => Raise e
              end,
              snd (generate_report (with_events w1 [Printed line_rule])))
         | Raise e => (Raise e, w1)
         end.
Proof.
  destruct (for_each apps (check_app env cfg)
              (with_events w [Printed line_starting; Printed line_rule]))
    as [outcome w1] eqn:Hrun.
  exists outcome, w1. split; [reflexivity|].
  unfold check_multiple_applications.
  unfold bind at 1. rewrite print_run.
  unfold bind at 1. rewrite print_run. rewrite with_events_app.
  unfold bind at 1. cbn [app]. rewrite Hrun.
  destruct outcome as [[]|e]; [|reflexivity].
  unfold bind at 1. rewrite print_run.
  unfold bind, ret.
  destruct (generate_report (with_events w1 [Printed line_rule]))
    as [[b|e] w2]; reflexivity.
Qed.


(** C10: with [retry_attempts] zero or negative, [check_application]
    makes no request, appends no result and returns [None]; the
    multi-target check then leaves the results as they were, whatever the
    targets, and on a checker without results it ends in the division
    error of the report. *)
Theorem no_attempt_without_retry_attempts (env : Env) (cfg : Config.t)
    (url : string) (name : option string) (method : string)
    (headers : option Headers) (data : option string) (w : World)
    (applications : list App.t) :
  Config.retry_attempts cfg <= 0 ->
  check_application env cfg url name method headers data w =
    (Return None,
     with_events w [Printed (line_checking (or_default name url))])
  /\ results (snd (check_multiple_applications env cfg applications w))
     = results w
  /\ (results w = [] ->
      fst (check_multiple_applications env cfg applications w)
      = Raise ZeroDivisionError).
Proof.
  intros Hn. split.
  { rewrite check_application_unfold, (range_nonpos _ Hn). reflexivity. }
  destruct (check_multiple_applications_run env cfg applications w)
    as [outcome [w1 [Hloop Hrun]]].
  destruct (for_each_check_app env cfg applications
              (with_events w [Printed line_starting; Printed line_rule]))
    as [outcome' [rs [w1' [Hloop' [Hres [_ [_ [_ [_ [Hnone _]]]]]]]]]].
  rewrite Hloop in Hloop'. injection Hloop' as <- <-.
  destruct (Hnone Hn) as [-> ->].
  rewrite app_nil_r in Hres. cbn [with_events results] in Hres.
  rewrite Hrun. cbn [fst snd]. split.
  - now rewrite generate_report_results.
  - intros Hempty. rewrite generate_report_empty; [reflexivity|].
    cbn [with_events results]. congruence.
Qed.
(** ** The contract of a check *)



(** C4: a result that [check_application] returns has exactly one of the
    keys [error] and [content_analysis]: the one of a transport failure
    has [error] and no [content_analysis], the one of a response has
    [content_analysis] and no [error]. *)
Theorem error_xor_content_analysis (env : Env) (cfg : Config.t)
    (url : string) (name : option string) (method : string)
    (headers : option Headers) (data : option string) (w w' : World)
    (r : Result.t) :
  check_application env cfg url name method headers data w
    = (Return (Some r), w') ->
  xorb (present (Result.error r)) (present (Result.content_analysis r))
    = true
  /\ (present (Result.error r) = true -> failed r)
  /\ (present (Result.content_analysis r) = true -> answered cfg r).
Proof.
  intros Hrun.
  destruct (check_application_sound env cfg url name method headers data w)
    as [o [w1 [Hrun1 [_ [_ [Hshape _]]]]]].
  rewrite Hrun in Hrun1. injection Hrun1 as <- <-.
  destruct (Hshape r eq_refl) as [_ [_ [Hf|Ha]]].
  - pose proof Hf as [_ [_ [_ [Hno [e He]]]]].
    rewrite He, Hno. cbn.
    split; [reflexivity|]. split; [intros _; exact Hf | discriminate].
  - pose proof Ha as [code [time [an [_ [_ [Han [He _]]]]]]].
    rewrite He, Han. cbn.
    split; [reflexivity|]. split; [discriminate | intros _; exact Ha].
Qed.

Lemma error_xor_content_analysis_witness :
  exists r w',
    check_application (flaky 503 "Service Unavailable") default_config
      "https://google.com" None "GET" None None fresh = (Return (Some r), w')
    /\ xorb (present (Result.error r)) (present (Result.content_analysis r))
       = true
    /\ (present (Result.error r) = true -> failed r)
    /\ (present (Result.content_analysis r) = true ->
        answered default_config r).
Proof.
  do 2 eexists. split; [vm_compute; reflexivity|].
  eapply (error_xor_content_analysis (flaky 503 "Service Unavailable")
            default_config "https://google.com" None "GET" None None fresh).
  vm_compute; reflexivity.
Defined.

(** The sample networks raise nothing but [RequestException]s. *)
Lemma quiet_unreachable : quiet unreachable.
Proof. intros n c e. discriminate. Qed.

Lemma quiet_answering (code : Z) (text : string) :
  quiet (answering code text).
Proof. intros n c e. discriminate. Qed.

Lemma quiet_flaky (code : Z) (text : string) : quiet (flaky code text).
Proof. intros [|n] c e; discriminate. Qed.




Lemma no_attempt_without_retry_attempts_witness :
  Config.retry_attempts (with_retry_attempts 0 default_config) <= 0
  /\ check_application unreachable (with_retry_attempts 0 default_config)
       "https://google.com" (Some "Google") "GET" None None fresh
     = (Return None,
        with_events fresh [Printed (line_checking "Google")])
  /\ results (snd (check_multiple_applications unreachable
                     (with_retry_attempts 0 default_config)
                     default_applications fresh)) = []
  /\ (results fresh = [] ->
      fst (check_multiple_applications unreachable
             (with_retry_attempts 0 default_config)
             default_applications fresh) = Raise ZeroDivisionError).
Proof.
  split; [vm_compute; discriminate|].
  apply (no_attempt_without_retry_attempts unreachable
           (with_retry_attempts 0 default_config) "https://google.com"
           (Some "Google") "GET" None None fresh default_applications).
  vm_compute; discriminate.
Defined.

(** ** The contract of the report *)

Lemma up_count_bounds (rs : list Result.t) : 0 <= up_count rs <= len rs.
Proof.
  unfold up_count, len. pose proof (filter_length_le is_up rs). lia.
Qed.

(** What the check of [rates_are_close] covers. *)
Lemma rates_are_close_spec (bound : nat) (up total : Z) :
  rates_are_close bound = true ->
  0 <= up <= total ->
  1 <= total <= Z.of_nat bound ->
  rate_is_close up total = true.
Proof.
  intros H Hup Htotal.
  unfold rates_are_close in H. rewrite forallb_forall in H.
  specialize (H (Z.to_nat total - 1)%nat).
  rewrite in_seq, forallb_forall in H.
  assert (Hin : (0 <= Z.to_nat total - 1 < 0 + bound)%nat) by lia.
  specialize (H Hin (Z.to_nat up)).
  rewrite in_seq in H.
  assert (Hin' : (0 <= Z.to_nat up < 0 + S (S (Z.to_nat total - 1)))%nat)
    by lia.
  specialize (H Hin').
  replace (Z.of_nat (Z.to_nat up)) with up in H by lia.
  replace (Z.of_nat (S (Z.to_nat total - 1))) with total in H by lia.
  exact H.
Qed.

Lemma rates_are_close_100 : rates_are_close 100 = true.
Proof. vm_compute. reflexivity. Qed.

(** For up to 100 results the float rate is the exact rate up to the
    rounding of its division and of its multiplication. *)
Lemma rate_close_upto (up total : Z) :
  0 <= up <= total ->
  1 <= total <= 100 ->
  (success_rate up total - rate_tolerance
     <= PyFloat.magnitude (float_rate up total))%Q
  /\ (PyFloat.magnitude (float_rate up total)
      <= success_rate up total + rate_tolerance)%Q.
Proof.
  intros Hup Htotal.
  assert (H : rate_is_close up total = true).
  { apply (rates_are_close_spec 100 up total rates_are_close_100 Hup). lia. }
  unfold rate_is_close in H. apply andb_prop in H as [Hlo Hhi].
  split; now apply Qle_bool_iff.
Qed.

(** C5: on a non-empty list of results the report prints the total (the
    length of the list), the number of UP results, the difference of the
    two as the number DOWN, and as the success rate the float
    [up/total * 100] to one decimal; it returns whether the number UP
    equals the total.  The float is the exact rate up to rounding (for
    up to 100 results: within [10^-13] of it), and the decimal printed
    is the nearest to the float: 66.7 for 2 UP out of 3, 28.7 for 23 UP
    out of 80, where the float is just below 28.75. *)
Theorem report_counts_and_rate (w : World) :
  results w <> [] ->
  (exists rest,
     generate_report w =
       (Return (up_count (results w) =? len (results w)),
        with_events w
          (map Printed
             ([ line_summary;
                line_total (Z.of_nat (List.length (results w)));
                line_up (Z.of_nat (List.length (filter is_up (results w))));
                line_down
                  (Z.of_nat (List.length (results w))
                   - Z.of_nat (List.length (filter is_up (results w))));
                line_success_rate
                  (PyFloat.format_f 1
                     (float_rate (up_count (results w))
                        (len (results w))))
              ] ++ rest))))
  /\ (len (results w) <= 100 ->
      (success_rate (up_count (results w)) (len (results w))
         - rate_tolerance
       <= PyFloat.magnitude
            (float_rate (up_count (results w)) (len (results w))))%Q
      /\ (PyFloat.magnitude
            (float_rate (up_count (results w)) (len (results w)))
          <= success_rate (up_count (results w)) (len (results w))
             + rate_tolerance)%Q)
  /\ PyFloat.format_f 1 (float_rate 2 3) = "66.7"
  /\ PyFloat.format_f 1 (float_rate 23 80) = "28.7"
  /\ PyFloat.format_f 1 (float_rate 1 8) = "12.5"
  /\ PyFloat.format_f 1 (float_rate 9 16) = "56.2"
  /\ PyFloat.format_f 1 (float_rate 3 3) = "100.0"
  /\ PyFloat.format_f 1 (float_rate 0 3) = "0.0".
Proof.
  intros H. split; [|split].
  - rewrite (generate_report_nonempty _ H).
    exists (response_time_lines (up_times_of (results w))
              ++ down_lines (filter is_down (results w)))%list.
    reflexivity.
  - intros Hlen. apply rate_close_upto.
    + apply up_count_bounds.
    + split; [|exact Hlen].
      unfold len. destruct (results w); [contradiction|].
      cbn [List.length]. lia.
  - repeat split; vm_compute; reflexivity.
Qed.

Lemma report_counts_and_rate_witness :
  results (holding two_of_three) <> []
  /\ exists rest,
       generate_report (holding two_of_three) =
         (Return false,
          with_events (holding two_of_three)
            (map Printed
               ([ line_summary; line_total 3; line_up 2; line_down 1;
                  line_success_rate "66.7" ] ++ rest))).
Proof.
  split; [discriminate|].
  destruct (report_counts_and_rate (holding two_of_three)) as [Hrun _];
    [discriminate|].
  destruct Hrun as [rest Hrun]. exists rest.
  transitivity
    (Return (up_count (results (holding two_of_three))
             =? len (results (holding two_of_three))),
     with_events (holding two_of_three)
       (map Printed
          ([ line_summary;
             line_total
               (Z.of_nat (List.length (results (holding two_of_three))));
             line_up
               (Z.of_nat
                  (List.length
                     (filter is_up (results (holding two_of_three)))));
             line_down
               (Z.of_nat (List.length (results (holding two_of_three)))
                - Z.of_nat
                    (List.length
                       (filter is_up (results (holding two_of_three)))));
             line_success_rate
               (PyFloat.format_f 1
                  (float_rate (up_count (results (holding two_of_three)))
                     (len (results (holding two_of_three)))))
           ] ++ rest))); [exact Hrun|].
  apply f_equal2; [reflexivity|].
  apply f_equal. apply f_equal.
  apply (f_equal (fun l => l ++ rest)%list).
  vm_compute. reflexivity.
Defined.

(** C7: the division of the success rate is not guarded: on an empty
    list of results the report raises [ZeroDivisionError], and on a
    non-empty list it raises nothing and returns. *)
Theorem division_by_zero_on_empty_results (w : World) :
  (results w = [] -> fst (generate_report w) = Raise ZeroDivisionError)
  /\ (results w <> [] -> exists b, fst (generate_report w) = Return b).
Proof.
  split; intros H.
  - now rewrite generate_report_empty.
  - rewrite generate_report_nonempty by exact H. cbn [fst]. eauto.
Qed.

Lemma division_by_zero_on_empty_results_witness :
  fst (generate_report fresh) = Raise ZeroDivisionError
  /\ exists b, fst (generate_report (holding two_of_three)) = Return b.
Proof.
  split.
  - apply (proj1 (division_by_zero_on_empty_results fresh)). reflexivity.
  - apply (proj2 (division_by_zero_on_empty_results (holding two_of_three))).
    discriminate.
Defined.

(** C9: the report is a function of the results alone and leaves them as
    they are: run twice in a row it returns the same value (or raises the
    same exception) and prints the same lines both times. *)
Theorem generate_report_twice (w : World) :
  exists outcome lines,
    generate_report w = (outcome, with_events w lines)
    /\ generate_report (with_events w lines)
       = (outcome, with_events (with_events w lines) lines)
    /\ results (with_events w lines) = results w
    /\ results (with_events (with_events w lines) lines) = results w.
Proof.
  destruct (results w) as [|r rs] eqn:Hrs.
  - exists (Raise ZeroDivisionError), (map Printed (summary_lines [])).
    repeat split; auto; now apply generate_report_empty.
  - assert (H : results w <> []) by (rewrite Hrs; discriminate).
    exists (Return (up_count (results w) =? len (results w))),
           (map Printed (report_lines (results w))).
    split; [now apply generate_report_nonempty|].
    split; [|split; auto].
    now rewrite generate_report_nonempty.
Qed.

(** The report sees the world through its results only. *)
Lemma generate_report_of_results (w1 w2 : World) :
  results w1 = results w2 ->
  fst (generate_report w1) = fst (generate_report w2)
  /\ exists lines,
       snd (generate_report w1) = with_events w1 lines
       /\ snd (generate_report w2) = with_events w2 lines.
Proof.
  intros H. destruct (results w2) as [|r rs] eqn:Hrs.
  - rewrite !generate_report_empty by congruence. cbn [fst snd]. eauto.
  - rewrite !generate_report_nonempty by congruence.
    rewrite H, Hrs. cbn [fst snd]. eauto.
Qed.

(** The times the report averages are the response times of the UP
    results that are present and not zero. *)
Lemma up_times_of_present (rs : list Result.t) :
  up_times_of rs = filter PyFloat.truthy (present_up_times rs).
Proof.
  induction rs as [|r rs IH]; [reflexivity|].
  cbn [up_times_of present_up_times]. unfold is_up.
  destruct (Result.response_time_ms r) as [t|], (Result.status r);
    cbn [Status_eqb andb filter]; rewrite ?IH; reflexivity.
Qed.

(** C8: one target answers 200 while the clock reads the same before and
    after the request.  Its result is UP with the response time 0.0
    present, so the statistics are due over that one time; the report
    finds no time to average and prints no response-time line. *)
Theorem zero_response_time_left_out :
  let w := snd (check_multiple_applications
                  (sample_env (fun _ _ => Response 200 "OK") coarse)
                  default_config [app_of_url "http://localhost:30007"]
                  fresh) in
  exists r,
    results w = [r]
    /\ Result.status r = UP
    /\ Result.response_time_ms r = Some PyFloat.zero
    /\ present_up_times (results w) = [PyFloat.zero]
    /\ response_time_lines (present_up_times (results w))
       = [line_response_times "0.00" "0.00" "0.00"]
    /\ up_times_of (results w) = []
    /\ events w =
       [ Printed line_starting; Printed line_rule;
         Printed (line_checking "http://localhost:30007");
         Requested (requests_get "http://localhost:30007"
                      (Config.timeout default_config) None);
         Printed (line_result UP "http://localhost:30007" 200 PyFloat.zero);
         Printed line_rule; Printed line_summary; Printed (line_total 1);
         Printed (line_up 1); Printed (line_down 0);
         Printed (line_success_rate "100.0") ].
Proof.
  cbv zeta. eexists. split; [vm_compute; reflexivity|].
  repeat split.
Qed.

(** ** The verdict on a response *)

Lemma determine_status_up (status_ok has_critical has_success : bool) :
  determine_status status_ok has_critical has_success = UP
  <-> status_ok = true /\ has_critical = false.
Proof.
  unfold determine_status.
  destruct status_ok, has_critical, has_success; cbn;
    split; try tauto; try discriminate; intros [? ?]; discriminate.
Qed.

(** The success keywords have no part in the verdict. *)
Lemma determine_status_ignores_success (status_ok has_critical a b : bool) :
  determine_status status_ok has_critical a
  = determine_status status_ok has_critical b.
Proof. unfold determine_status. now destruct status_ok, has_critical, a, b. Qed.

(** When the request of an attempt is answered, [check_application]
    returns at once, without another request: the result is UP exactly
    when the status code is an expected one and no critical keyword, as
    it is written in the configuration, occurs in the lower-cased body. *)
Theorem verdict_on_first_response (env : Env) (cfg : Config.t) (url : string)
    (name : option string) (method : string) (headers : option Headers)
    (data : option string) (w : World) (code : Z) (text : string) :
  1 <= Config.retry_attempts cfg ->
  http env (requests w) (http_call cfg url method headers data)
    = Response code text ->
  exists r w',
    check_application env cfg url name method headers data w
      = (Return (Some r), w')
    /\ requests w' = S (requests w)
    /\ results w' = (results w ++ [r])%list
    /\ Result.content_analysis r =
         Some {| has_critical_keywords :=
                   any_keyword_in (Config.critical_keywords cfg)
                     (PyStr.lower text);
                 has_success_keywords :=
                   any_keyword_in (Config.success_keywords cfg)
                     (PyStr.lower text) |}
    /\ (Result.status r = UP <->
        In code (Config.expected_status_codes cfg)
        /\ ~ exists keyword,
               In keyword (Config.critical_keywords cfg)
               /\ PyStr.occurs_in keyword (PyStr.lower text)).
Proof.
  intros Hn Hout.
  rewrite check_application_unfold, (range_pos _ Hn). cbn [seq map].
  rewrite (attempts_response env cfg _ url method headers data _ _ _ code text)
    by exact Hout.
  edestruct on_response_run as [r [Hrun [_ [_ [_ [_ [_ [Ha Hs]]]]]]]].
  rewrite Hrun. do 2 eexists. split; [reflexivity|].
  cbn [requests results with_events].
  split; [reflexivity|]. split; [reflexivity|]. split; [exact Ha|].
  rewrite Hs, determine_status_up, code_in_spec.
  split; intros [Hok Hcrit]; (split; [exact Hok|]).
  - intros Hex. apply any_keyword_in_spec in Hex. congruence.
  - destruct (any_keyword_in _ _) eqn:Hk; [|reflexivity].
    apply any_keyword_in_spec in Hk. contradiction.
Qed.

(** For a keyword written in lower case, occurring in the lower-cased
    body is occurring in the body whatever the case. *)
Lemma lower_case_keyword_ignores_case (keyword text : string) :
  PyStr.lower keyword = keyword ->
  (PyStr.occurs_in keyword (PyStr.lower text)
   <-> PyStr.occurs_ignoring_case keyword text).
Proof. intros H. unfold PyStr.occurs_ignoring_case. now rewrite H. Qed.

(** C1: the critical keyword [ERROR] is configured and the target answers
    200 with a body that starts with [ERROR].  The keyword occurs in the
    body, whatever the case, yet the check finds no critical keyword and
    returns UP: the body is lower-cased before the search, the keyword is
    not. *)
Theorem upper_case_keyword_never_found :
  exists r w',
    check_application (answering 200 "ERROR: database unavailable")
      (with_critical_keywords ["ERROR"] default_config)
      "http://localhost:30007" None "GET" None None fresh
      = (Return (Some r), w')
    /\ Result.status r = UP
    /\ Result.content_analysis r =
         Some {| has_critical_keywords := false;
                 has_success_keywords := false |}
    /\ In 200 (Config.expected_status_codes
                 (with_critical_keywords ["ERROR"] default_config))
    /\ In "ERROR" (Config.critical_keywords
                     (with_critical_keywords ["ERROR"] default_config))
    /\ PyStr.occurs_ignoring_case "ERROR" "ERROR: database unavailable".
Proof.
  do 2 eexists. split; [vm_compute; reflexivity|].
  repeat split.
  - cbn. auto.
  - cbn. auto.
  - exists "", ": database unavailable". reflexivity.
Qed.

(** ** Requests and sleeps of one check *)

Lemma count_requests_app (a b : list Event) :
  count_requests (a ++ b) = (count_requests a + count_requests b)%nat.
Proof. unfold count_requests. now rewrite filter_app, length_app. Qed.

Lemma count_sleeps_app (a b : list Event) :
  count_sleeps (a ++ b) = (count_sleeps a + count_sleeps b)%nat.
Proof. unfold count_sleeps. now rewrite filter_app, length_app. Qed.

Section Trace.

Variable env : Env.
Variable cfg : Config.t.
Variables name url method : string.
Variable headers : option Headers.
Variable data : option string.

Let call := http_call cfg url method headers data.
Let loop := attempts env cfg name url method headers data.

(** The loop counts its requests in the world, makes at most one per
    attempt left, causes nothing but lines, requests and sleeps, and has
    slept once less than it has requested when it ends on a request: one
    that is answered, one that fails for the last time or one that
    raises another exception. *)
Lemma attempts_trace (todo : list Z) :
  forall w, exists outcome w' new,
    loop todo w = (outcome, w')
    /\ events w' = (events w ++ new)%list
    /\ requests w' = (requests w + count_requests new)%nat
    /\ (count_requests new <= List.length todo)%nat
    /\ forallb is_check_event new = true
    /\ (outcome <> Return None ->
        count_requests new = S (count_sleeps new))
    /\ (outcome = Return None -> count_requests new = List.length todo)
    /\ (quiet env -> exists o, outcome = Return o).
Proof.
  induction todo as [|attempt rest IH]; intros w.
  - exists (Return None), w, []. cbn. rewrite app_nil_r.
    repeat split; eauto. intros H. now contradiction H.
  - destruct (http env (requests w) call) as [code text|e|e] eqn:Hout.
    + rewrite (attempts_response env cfg name url method headers data
                 _ _ _ _ _ Hout).
      edestruct on_response_run as [r [Hrun _]]. rewrite Hrun.
      do 3 eexists. split; [reflexivity|]. cbn [events requests].
      rewrite <- app_assoc. split; [reflexivity|].
      cbn. repeat split; eauto; try lia. discriminate.
    + destruct (Z.lt_ge_cases attempt (Config.retry_attempts cfg - 1))
        as [Hlt|Hge].
      * rewrite (attempts_retry env cfg name url method headers data
                   _ _ _ _ Hout Hlt).
        match goal with |- context [attempts _ _ _ _ _ _ _ rest ?w1] =>
          destruct (IH w1) as
            [o [w' [new [Hrun [Hev [Hreq [Hle [Hok [Hsome [Hnone
               Hq]]]]]]]]]]
        end.
        cbn [events requests] in Hev, Hreq.
        exists o, w',
          ([Requested call; Printed (line_retrying (attempt + 1) name);
            Slept (Config.retry_delay cfg)] ++ new)%list.
        split; [exact Hrun|]. split; [now rewrite Hev, <- app_assoc|].
        rewrite count_requests_app, count_sleeps_app.
        change (count_requests [Requested call;
                  Printed (line_retrying (attempt + 1) name);
                  Slept (Config.retry_delay cfg)]) with 1%nat.
        change (count_sleeps [Requested call;
                  Printed (line_retrying (attempt + 1) name);
                  Slept (Config.retry_delay cfg)]) with 1%nat.
        cbn [List.length].
        split; [lia|]. split; [lia|]. split; [exact Hok|].
        split; [|split; [|exact Hq]].
        -- intros Hr. specialize (Hsome Hr). lia.
        -- intros Ho. specialize (Hnone Ho). lia.
      * rewrite (attempts_give_up env cfg name url method headers data
                   _ _ _ _ Hout Hge).
        edestruct on_last_failure_run as [r [Hrun _]]. rewrite Hrun.
        do 3 eexists. split; [reflexivity|]. cbn [events requests].
        rewrite <- app_assoc. split; [reflexivity|].
        cbn. repeat split; eauto; try lia. discriminate.
    + rewrite (attempts_other env cfg name url method headers data
                 _ _ _ _ Hout).
      do 3 eexists. split; [reflexivity|]. cbn [events requests].
      split; [reflexivity|].
      cbn. repeat split; eauto; try lia; try discriminate.
      intros Hq. now contradiction (Hq (requests w) call e).
Qed.


End Trace.



(** ** What the results of a run satisfy *)

Lemma shape_invariants (cfg : Config.t) (r : Result.t) :
  failed r \/ answered cfg r -> up_invariant cfg r /\ down_invariant cfg r.
Proof.
  intros [Hf|Ha].
  - destruct Hf as [Hs [Hc [Ht [Ha He]]]]. split.
    + intros Hup. congruence.
    + intros _. left. auto.
  - destruct Ha as [code [time [an [Hc [Ht [Ha [He Hs]]]]]]]. split.
    + intros Hup. rewrite Hs in Hup.
      apply determine_status_up in Hup as [Hok Hcrit].
      exists code, time, an. repeat split; auto. now apply code_in_spec.
    + intros Hdown. right. exists code, an. repeat split; auto.
      destruct (code_in code (Config.expected_status_codes cfg)) eqn:Hok.
      * right. destruct (has_critical_keywords an) eqn:Hcrit; [reflexivity|].
        rewrite Hs in Hdown.
        assert (determine_status true false (has_success_keywords an) = UP)
          by (now apply determine_status_up).
        congruence.
      * left. intros Hin. apply code_in_spec in Hin. congruence.
Qed.

(** X3: whatever the configuration and the network, the multi-target
    check keeps the results it finds and appends at most one result per
    target; each appended result that is UP has a status code among the
    expected ones, a response time, a content analysis without critical
    keyword and no error, and each that is DOWN is either a transport
    failure (error set, no status code, response time or content
    analysis) or a response whose status code is not expected or whose
    body holds a critical keyword. *)
Theorem appended_results_invariants (env : Env) (cfg : Config.t)
    (applications : list App.t) (w : World) :
  exists rs,
    results (snd (check_multiple_applications env cfg applications w))
      = (results w ++ rs)%list
    /\ (List.length rs <= List.length applications)%nat
    /\ Forall (fun r => up_invariant cfg r /\ down_invariant cfg r) rs.
Proof.
  destruct (check_multiple_applications_run env cfg applications w)
    as [outcome [w1 [Hloop Hrun]]].
  destruct (for_each_check_app env cfg applications
              (with_events w [Printed line_starting; Printed line_rule]))
    as [outcome' [rs [w1' [Hloop' [Hres [Hshape [Hlen _]]]]]]].
  rewrite Hloop in Hloop'. injection Hloop' as <- <-.
  exists rs. rewrite Hrun.
  assert (Hend : results (snd match outcome with
                              | Return _ =>
                                  (match fst (generate_report
                                                (with_events w1
                                                   [Printed line_rule])) with
                                   | Return _ => Return tt
                                   | Raise e => Raise e
                                   end,
                                   snd (generate_report
                                          (with_events w1
                                             [Printed line_rule])))
                              | Raise e => (Raise e, w1)
                              end) = results w1).
  { destruct outcome; cbn [snd]; [|reflexivity].
    now rewrite generate_report_results. }
  rewrite Hend. cbn [with_events results] in *.
  split; [exact Hres|]. split; [exact Hlen|].
  apply Forall_forall. intros r Hr. apply shape_invariants. now apply Hshape.
Qed.

(** ** What the report says *)

Lemma filter_all_length {A} (f : A -> bool) (l : list A) :
  List.length (filter f l) = List.length l <-> forallb f l = true.
Proof.
  induction l as [|a l IH]; [cbn; tauto|].
  cbn [filter forallb]. destruct (f a); cbn [List.length andb].
  - rewrite <- IH. split; intros H; lia.
  - pose proof (filter_length_le f l). split; [lia | discriminate].
Qed.

Lemma up_down_partition (rs : list Result.t) :
  (List.length (filter is_up rs) + List.length (filter is_down rs))%nat
  = List.length rs.
Proof.
  induction rs as [|r rs IH]; [reflexivity|].
  cbn [filter]. unfold is_up at 1, is_down at 1.
  destruct (Result.status r); cbn [Status_eqb List.length]; lia.
Qed.

Lemma filter_down_app_lines (downs : list Result.t) :
  filter is_down_app_line (down_lines downs) = map down_app_line downs.
Proof.
  unfold down_lines. destruct downs as [|d ds]; [reflexivity|].
  cbn [filter is_down_app_line].
  induction (d :: ds) as [|x xs IH]; [reflexivity|].
  cbn [map filter is_down_app_line]. now rewrite IH.
Qed.

(** X4: on a non-empty list of results the report returns [True] exactly
    when every result is UP; the number it prints as DOWN is the number of
    DOWN results, and the DOWN applications it lists are the DOWN results,
    in their order, each with its name and its error, or "Unknown error"
    when it has none. *)
Theorem report_verdict_and_down_list (w : World) :
  results w <> [] ->
  exists lines,
    generate_report w
      = (Return (forallb is_up (results w)), with_events w (map Printed lines))
    /\ In (line_down (len (filter is_down (results w)))) lines
    /\ filter is_down_app_line lines
       = map down_app_line (filter is_down (results w)).
Proof.
  intros H. rewrite (generate_report_nonempty _ H).
  exists (report_lines (results w)). split; [|split].
  - f_equal. f_equal. unfold up_count, len.
    destruct (forallb is_up (results w)) eqn:Hall.
    + apply Z.eqb_eq. f_equal. now apply filter_all_length.
    + apply Z.eqb_neq. intros Heq. apply Nat2Z.inj in Heq.
      apply filter_all_length in Heq. congruence.
  - unfold report_lines, summary_lines. apply in_or_app. left.
    cbn. do 3 right. left. f_equal. unfold up_count, len.
    pose proof (up_down_partition (results w)). lia.
  - unfold report_lines, summary_lines. rewrite !filter_app.
    cbn [filter is_down_app_line app].
    rewrite filter_down_app_lines.
    unfold response_time_lines.
    destruct (up_times_of (results w)); reflexivity.
Qed.

Lemma report_verdict_and_down_list_witness :
  results (holding two_of_three) <> []
  /\ exists lines,
       generate_report (holding two_of_three)
         = (Return false, with_events (holding two_of_three) (map Printed lines))
       /\ In (line_down 1) lines
       /\ filter is_down_app_line lines
          = [line_down_app "b" "Read timed out"].
Proof.
  split; [discriminate|].
  apply (report_verdict_and_down_list (holding two_of_three)). discriminate.
Defined.



(** ** Keywords and methods *)

(** X6: when the keywords of the configuration are written in lower
    case, as the default ones are, the content analysis of an answered
    check ignores the case of the body: a flag is set exactly when one of
    its keywords occurs in the body, upper or lower case. *)
Theorem lower_case_keywords_ignore_case (env : Env) (cfg : Config.t)
    (url : string) (name : option string) (method : string)
    (headers : option Headers) (data : option string) (w : World)
    (code : Z) (text : string) :
  1 <= Config.retry_attempts cfg ->
  http env (requests w) (http_call cfg url method headers data)
    = Response code text ->
  Forall (fun k => PyStr.lower k = k) (Config.critical_keywords cfg) ->
  Forall (fun k => PyStr.lower k = k) (Config.success_keywords cfg) ->
  exists r w' analysis,
    check_application env cfg url name method headers data w
      = (Return (Some r), w')
    /\ Result.content_analysis r = Some analysis
    /\ (has_critical_keywords analysis = true <->
        exists k, In k (Config.critical_keywords cfg)
                  /\ PyStr.occurs_ignoring_case k text)
    /\ (has_success_keywords analysis = true <->
        exists k, In k (Config.success_keywords cfg)
                  /\ PyStr.occurs_ignoring_case k text).
Proof.
  intros Hn Hout Hcrit Hsucc.
  assert (Hany : forall ks,
            Forall (fun k => PyStr.lower k = k) ks ->
            any_keyword_in ks (PyStr.lower text) = true <->
            exists k, In k ks /\ PyStr.occurs_ignoring_case k text).
  { intros ks Hks. rewrite any_keyword_in_spec.
    rewrite Forall_forall in Hks.
    split; intros [k [Hin Hk]]; exists k; (split; [exact Hin|]);
      unfold PyStr.occurs_ignoring_case in *; now rewrite (Hks k Hin) in *. }
  rewrite check_application_unfold, (range_pos _ Hn). cbn [seq map].
  rewrite (attempts_response env cfg _ url method headers data _ _ _ code text)
    by exact Hout.
  edestruct on_response_run as [r [Hrun [_ [_ [_ [_ [_ [Ha _]]]]]]]].
  rewrite Hrun. do 3 eexists. split; [reflexivity|].
  split; [exact Ha|]. cbn [has_critical_keywords has_success_keywords].
  split; now apply Hany.
Qed.

Lemma lower_case_keywords_ignore_case_witness :
  1 <= Config.retry_attempts default_config
  /\ Forall (fun k => PyStr.lower k = k)
       (Config.critical_keywords default_config)
  /\ Forall (fun k => PyStr.lower k = k)
       (Config.success_keywords default_config)
  /\ exists r w' analysis,
       check_application (answering 200 "Database ERROR occurred")
         default_config "https://google.com" None "GET" None None fresh
         = (Return (Some r), w')
       /\ Result.content_analysis r = Some analysis
       /\ (has_critical_keywords analysis = true <->
           exists k, In k (Config.critical_keywords default_config)
                     /\ PyStr.occurs_ignoring_case k "Database ERROR occurred")
       /\ (has_success_keywords analysis = true <->
           exists k, In k (Config.success_keywords default_config)
                     /\ PyStr.occurs_ignoring_case k "Database ERROR occurred").
Proof.
  assert (Hc : Forall (fun k => PyStr.lower k = k)
                 (Config.critical_keywords default_config))
    by (repeat constructor).
  assert (Hs : Forall (fun k => PyStr.lower k = k)
                 (Config.success_keywords default_config))
    by (repeat constructor).
  split; [vm_compute; discriminate|]. split; [exact Hc|]. split; [exact Hs|].
  apply (lower_case_keywords_ignore_case
           (answering 200 "Database ERROR occurred") default_config
           "https://google.com" None "GET" None None fresh 200
           "Database ERROR occurred").
  - vm_compute; discriminate.
  - reflexivity.
  - exact Hc.
  - exact Hs.
Defined.

Lemma attempts_same_call (env : Env) (cfg : Config.t)
    (name url method : string) (headers : option Headers)
    (data data' : option string) (todo : list Z) :
  http_call cfg url method headers data
  = http_call cfg url method headers data' ->
  forall w,
    attempts env cfg name url method headers data todo w
    = attempts env cfg name url method headers data' todo w.
Proof.
  intros Hcall. induction todo as [|attempt rest IH]; intros w;
    [reflexivity|].
  cbn [attempts]. unfold bind. rewrite Hcall.
  destruct (read_clock (time_time env) w) as [[t|e] w1]; [|reflexivity].
  destruct (request env _ w1) as [[[code text|e|e]|e] w2]; try reflexivity.
  destruct (attempt <? Config.retry_attempts cfg - 1); [|reflexivity].
  destruct (print _ w2) as [[u|e'] w3]; [|reflexivity].
  destruct (sleep _ w3) as [[u'|e'] w4]; [|reflexivity].
  apply IH.
Qed.

(** X7: a check whose method is GET, in any letter case, does not send
    the body of the target: it runs as the same check without a body. *)
Theorem get_sends_no_body (env : Env) (cfg : Config.t) (url : string)
    (name : option string) (method : string) (headers : option Headers)
    (data : option string) (w : World) :
  PyStr.upper method = "GET" ->
  check_application env cfg url name method headers data w
  = check_application env cfg url name method headers None w.
Proof.
  intros Hget. rewrite !check_application_unfold.
  apply attempts_same_call. unfold http_call. now rewrite Hget.
Qed.

Lemma get_sends_no_body_witness :
  PyStr.upper "get" = "GET"
  /\ check_application (answering 200 "OK") default_config
       "http://localhost:30007" None "get" None (Some "payload") fresh
     = check_application (answering 200 "OK") default_config
         "http://localhost:30007" None "get" None None fresh.
Proof.
  split; [reflexivity|].
  apply (get_sends_no_body (answering 200 "OK") default_config
           "http://localhost:30007" None "get" None (Some "payload") fresh).
  reflexivity.
Defined.

(** ** The run does not read what it wrote *)

Lemma main_unfold (env : Env) (args : Args.t) :
  main env args =
    (init_results ;;
     cfg <- load_config env (Args.config args) ;;
     main_after_config env args cfg).
Proof. reflexivity. Qed.

Lemma same_state_refl (w : World) : same_state w w.
Proof. repeat split. Qed.

Lemma blind_ret {A} (a : A) : blind (ret a).
Proof.
  intros w1 w2 H. exists (Return a), [], w1, w2.
  rewrite !app_nil_r. repeat split; apply H.
Qed.

Lemma blind_raise {A} (e : Exn) : blind (@raise A e).
Proof.
  intros w1 w2 H. exists (Raise e), [], w1, w2.
  rewrite !app_nil_r. repeat split; apply H.
Qed.

Lemma blind_bind {A B} (m : M A) (k : A -> M B) :
  blind m -> (forall a, blind (k a)) -> blind (bind m k).
Proof.
  intros Hm Hk w1 w2 H.
  destruct (Hm w1 w2 H) as [a [new [w1' [w2' [E1 [E2 [H' [Ev1 Ev2]]]]]]]].
  unfold bind. rewrite E1, E2. destruct a as [a|e].
  - destruct (Hk a w1' w2' H')
      as [b [new' [w1'' [w2'' [F1 [F2 [H'' [Fv1 Fv2]]]]]]]].
    exists b, (new ++ new')%list, w1'', w2''.
    rewrite Fv1, Fv2, Ev1, Ev2, !app_assoc. auto.
  - exists (Raise e), new, w1', w2'. auto.
Qed.

Lemma blind_emit (e : Event) : blind (emit e).
Proof.
  intros w1 w2 [H1 [H2 H3]]. do 4 eexists.
  split; [reflexivity|]. split; [reflexivity|].
  repeat split; assumption.
Qed.

Lemma blind_append_result (r : Result.t) : blind (append_result r).
Proof.
  intros w1 w2 [H1 [H2 H3]]. exists (Return tt), []. do 2 eexists.
  split; [reflexivity|]. split; [reflexivity|].
  cbn [events]. rewrite !app_nil_r.
  repeat split; cbn; congruence.
Qed.

Lemma blind_get_results : blind get_results.
Proof.
  intros w1 w2 [H1 [H2 H3]]. exists (Return (results w1)), [], w1, w2.
  rewrite !app_nil_r. unfold get_results. rewrite H1. repeat split; auto.
Qed.

Lemma blind_init_results : blind init_results.
Proof.
  intros w1 w2 [H1 [H2 H3]]. exists (Return tt), []. do 2 eexists.
  split; [reflexivity|]. split; [reflexivity|].
  cbn [events]. rewrite !app_nil_r. repeat split; cbn; congruence.
Qed.

Lemma blind_read_clock {A} (f : nat -> A) : blind (read_clock f).
Proof.
  intros w1 w2 [H1 [H2 H3]]. exists (Return (f (clock w1))), [].
  do 2 eexists. unfold read_clock.
  split; [reflexivity|]. split; [rewrite H3; reflexivity|].
  cbn [events]. rewrite !app_nil_r. repeat split; cbn; congruence.
Qed.

Lemma blind_request (env : Env) (c : HttpCall) : blind (request env c).
Proof.
  intros w1 w2 [H1 [H2 H3]]. exists (Return (http env (requests w1) c)).
  do 3 eexists. unfold request.
  split; [reflexivity|]. split; [rewrite H2; reflexivity|].
  cbn [events]. repeat split; cbn; congruence.
Qed.

Lemma blind_true_div (a b : Z) : blind (true_div a b).
Proof.
  unfold true_div. destruct (b =? 0); [apply blind_raise|apply blind_ret].
Qed.

Lemma blind_float_div (x : PyFloat.t) (b : Z) : blind (float_div x b).
Proof.
  unfold float_div. destruct (b =? 0); [apply blind_raise|apply blind_ret].
Qed.

Ltac blind_with tac :=
  repeat first
    [ solve [tac]
    | assumption
    | apply blind_ret | apply blind_raise | apply blind_emit
    | apply blind_append_result | apply blind_get_results
    | apply blind_init_results | apply blind_read_clock
    | apply blind_request | apply blind_true_div | apply blind_float_div
    | apply blind_bind; [|intros ?]
    | progress (unfold print, sleep, sys_exit)
    | match goal with
      | |- blind (match ?x with _ => _ end) => destruct x
      | |- blind (if ?b then _ else _) => destruct b
      end ].

Ltac blind_step := blind_with fail.

Lemma blind_for_each {A B} (xs : list A) (body : A -> M B) :
  (forall x, blind (body x)) -> blind (for_each xs body).
Proof.
  intros Hbody. induction xs as [|x xs IH]; cbn [for_each];
    blind_with ltac:(apply Hbody).
Qed.

Lemma blind_attempts (env : Env) (cfg : Config.t) (name url method : string)
    (headers : option Headers) (data : option string) (todo : list Z) :
  blind (attempts env cfg name url method headers data todo).
Proof.
  induction todo as [|attempt rest IH]; cbn [attempts];
    unfold on_response, on_last_failure; blind_step.
Qed.

Lemma blind_check_app (env : Env) (cfg : Config.t) (app : App.t) :
  blind (check_app env cfg app).
Proof.
  unfold check_app, check_application.
  blind_with ltac:(apply blind_attempts).
Qed.

Lemma blind_generate_report : blind generate_report.
Proof.
  unfold generate_report.
  blind_with ltac:(apply blind_for_each; intros app; blind_step).
Qed.

Lemma blind_check_multiple_applications (env : Env) (cfg : Config.t)
    (apps : list App.t) :
  blind (check_multiple_applications env cfg apps).
Proof.
  unfold check_multiple_applications.
  blind_with ltac:(first [ apply blind_for_each; apply blind_check_app
                         | apply blind_generate_report ]).
Qed.

Lemma blind_save_results (env : Env) (filename : option string) :
  blind (save_results env filename).
Proof. unfold save_results. blind_step. Qed.

Lemma blind_send_alert (env : Env) (cfg : Config.t) (subject message : string) :
  blind (send_alert env cfg subject message).
Proof. unfold send_alert. blind_step. Qed.

Lemma blind_finish (env : Env) (cfg : Config.t) (args : Args.t) :
  blind (finish env cfg args).
Proof.
  unfold finish. cbv zeta.
  blind_with ltac:(first [ apply blind_save_results
                         | apply blind_send_alert ]).
Qed.

Lemma blind_load_applications (env : Env) (args : Args.t) :
  blind (load_applications env args).
Proof. unfold load_applications. blind_step. Qed.

Lemma blind_main_after_config (env : Env) (args : Args.t) (cfg : Config.t) :
  blind (main_after_config env args cfg).
Proof.
  unfold main_after_config.
  blind_with ltac:(first [ apply blind_load_applications
                         | apply blind_check_multiple_applications
                         | apply blind_finish ]).
Qed.

(** X8: a configuration file whose reading raises [FileNotFoundError]
    or [JSONDecodeError] is not fatal: after the one line of warning
    that goes with the exception the run goes on with the default
    configuration, exactly as the run without [--config] does: same
    outcome, same results, same number of requests, same events after
    the warning. *)
Theorem unreadable_config_is_not_fatal (env : Env) (args : Args.t) :
  PyStr.truthy (Args.config args) = true ->
  read_config env (or_default (Args.config args) "") = FileNotFoundError
  \/ read_config env (or_default (Args.config args) "") = JSONDecodeError ->
  exists warning,
    warning
    = match read_config env (or_default (Args.config args) "") with
      | JSONDecodeError =>
          line_config_invalid (or_default (Args.config args) "")
      | _ => line_config_not_found (or_default (Args.config args) "")
      end
    /\ fst (run env args) = fst (run env (without_config args))
    /\ results (snd (run env args))
       = results (snd (run env (without_config args)))
    /\ requests (snd (run env args))
       = requests (snd (run env (without_config args)))
    /\ events (snd (run env args))
       = Printed warning :: events (snd (run env (without_config args))).
Proof.
  intros Hfile Hread.
  set (warning := match read_config env (or_default (Args.config args) "")
                  with
                  | JSONDecodeError =>
                      line_config_invalid (or_default (Args.config args) "")
                  | _ =>
                      line_config_not_found (or_default (Args.config args) "")
                  end).
  assert (Hload : load_config env (Args.config args) fresh
                  = (Return default_config,
                     with_events fresh [Printed warning])).
  { unfold load_config. rewrite Hfile. subst warning.
    destruct Hread as [-> | ->]; reflexivity. }
  exists warning. split; [reflexivity|].
  assert (H1 : run env args
               = main_after_config env args default_config
                   (with_events fresh [Printed warning])).
  { unfold run. rewrite main_unfold. unfold bind at 1.
    change (init_results fresh) with (Return tt, fresh).
    unfold bind at 1. now rewrite Hload. }
  assert (H2 : run env (without_config args)
               = main_after_config env args default_config fresh)
    by reflexivity.
  rewrite H1, H2.
  destruct (blind_main_after_config env args default_config
              (with_events fresh [Printed warning]) fresh
              (same_state_refl fresh))
    as [a [new [w1' [w2' [E1 [E2 [[Hr [Hq _]] [Ev1 Ev2]]]]]]]].
  rewrite E1, E2. cbn [fst snd].
  repeat split; auto. rewrite Ev1, Ev2. reflexivity.
Qed.

Lemma unreadable_config_is_not_fatal_witness :
  exists warning,
    warning = line_config_not_found "missing.json"
    /\ fst (run unreachable
           {| Args.config := Some "missing.json"; Args.url := None;
              Args.file := None; Args.save := None; Args.email := false |})
    = fst (run unreachable no_args)
    /\ results (snd (run unreachable
           {| Args.config := Some "missing.json"; Args.url := None;
              Args.file := None; Args.save := None; Args.email := false |}))
       = results (snd (run unreachable no_args))
    /\ requests (snd (run unreachable
           {| Args.config := Some "missing.json"; Args.url := None;
              Args.file := None; Args.save := None; Args.email := false |}))
       = requests (snd (run unreachable no_args))
    /\ events (snd (run unreachable
           {| Args.config := Some "missing.json"; Args.url := None;
              Args.file := None; Args.save := None; Args.email := false |}))
       = Printed warning :: events (snd (run unreachable no_args)).
Proof.
  apply (unreadable_config_is_not_fatal unreachable
           {| Args.config := Some "missing.json"; Args.url := None;
              Args.file := None; Args.save := None; Args.email := false |}).
  - reflexivity.
  - left. reflexivity.
Defined.
(** ** The shape of a run *)

Lemma printed_are_check_events (lines : list Line) :
  forallb is_check_event (map Printed lines) = true.
Proof. induction lines; [reflexivity | assumption]. Qed.

Lemma load_config_of (env : Env) (config_file : option string) (w : World) :
  exists lines,
    load_config env config_file w
    = (Return (config_of env config_file),
       with_events w (map Printed lines)).
Proof.
  unfold load_config, config_of.
  destruct (PyStr.truthy config_file);
    [destruct (read_config env (or_default config_file ""))|].
  - eexists [_]. reflexivity.
  - eexists [_]. reflexivity.
  - exists []. unfold ret. cbn [map]. now rewrite with_events_nil.
  - exists []. unfold ret. cbn [map]. now rewrite with_events_nil.
Qed.

Lemma load_applications_of (env : Env) (args : Args.t) (w : World) :
  match applications_of env args with
  | Some apps => load_applications env args w = (Return apps, w)
  | None =>
      exists l, load_applications env args w
                = (Raise (SystemExit 1), with_events w [Printed l])
  end.
Proof.
  unfold load_applications, applications_of.
  destruct (PyStr.truthy (Args.url args)); [reflexivity|].
  destruct (PyStr.truthy (Args.file args)); [|reflexivity].
  destruct (read_applications env (or_default (Args.file args) ""));
    try reflexivity; eexists; reflexivity.
Qed.

Lemma for_each_check_app_events (env : Env) (cfg : Config.t)
    (apps : list App.t) :
  forall w, exists new,
    events (snd (for_each apps (check_app env cfg) w))
      = (events w ++ new)%list
    /\ forallb is_check_event new = true.
Proof.
  induction apps as [|a apps IH]; intros w; cbn [for_each].
  - exists []. cbn. now rewrite app_nil_r.
  - unfold bind, check_app at 1. rewrite check_application_unfold.
    destruct (attempts_trace env cfg
                (or_default (App.name a) (App.url a)) (App.url a)
                (or_default (App.method a) "GET") (App.headers a)
                (App.data a) (PyNum.range (Config.retry_attempts cfg))
                (with_events w
                   [Printed (line_checking
                               (or_default (App.name a) (App.url a)))]))
      as [o [w' [new [Hrun [Hev [_ [_ [Hok _]]]]]]]].
    rewrite Hrun. cbn [with_events events] in Hev.
    destruct o as [o|e].
    + destruct (IH w') as [new' [Hev' Hok']].
      rewrite Hev', Hev.
      exists (Printed (line_checking (or_default (App.name a) (App.url a)))
                :: new ++ new')%list.
      split; [now rewrite <- !app_assoc|].
      cbn [forallb is_check_event andb]. rewrite forallb_app, Hok, Hok'.
      reflexivity.
    + cbn [snd]. rewrite Hev.
      exists (Printed (line_checking (or_default (App.name a) (App.url a)))
                :: new)%list.
      split; [now rewrite <- !app_assoc|].
      cbn [forallb is_check_event andb]. exact Hok.
Qed.

Lemma no_down_all_up (rs : list Result.t) :
  filter is_down rs = [] <-> forallb is_up rs = true.
Proof.
  induction rs as [|r rs IH]; [cbn; tauto|].
  cbn [filter forallb]. unfold is_down at 1, is_up at 1.
  destruct (Result.status r); cbn [Status_eqb andb].
  - exact IH.
  - split; discriminate.
Qed.

(** The checks and the report.  The results grow by the results of the
    checks and the events by lines, requests and sleeps.  The loop over
    the targets ends with [loop_outcome]; when it raises, so does the
    whole; otherwise the report follows, and raises the division error
    exactly when there is no result. *)
Lemma check_multiple_applications_shape (env : Env) (cfg : Config.t)
    (apps : list App.t) (w : World) :
  exists loop_outcome w2 rs new,
    check_multiple_applications env cfg apps w
    = (match loop_outcome with
       | Raise e => Raise e
       | Return _ =>
           match results w2 with
           | [] => Raise ZeroDivisionError
           | _ :: _ => Return tt
           end
       end, w2)
    /\ results w2 = (results w ++ rs)%list
    /\ events w2 = (events w ++ new)%list
    /\ forallb is_check_event new = true
    /\ (forall r, In r rs -> failed r \/ answered cfg r)
    /\ (List.length rs <= List.length apps)%nat
    /\ (quiet env -> loop_outcome = Return tt)
    /\ (loop_outcome = Return tt -> 1 <= Config.retry_attempts cfg ->
        map identity_of_result rs = map identity_of_app apps)
    /\ (Config.retry_attempts cfg <= 0 ->
        rs = [] /\ loop_outcome = Return tt)
    /\ (1 <= Config.retry_attempts cfg ->
        map identity_of_result rs
        = map identity_of_app (firstn (List.length rs) apps))
    /\ (forall e, loop_outcome = Raise e -> exists d, e = OtherError d).
Proof.
  destruct (check_multiple_applications_run env cfg apps w)
    as [outcome [w1 [Hloop Hrun]]].
  destruct (for_each_check_app env cfg apps
              (with_events w [Printed line_starting; Printed line_rule]))
    as [outcome' [rs [w1' [Hloop' [Hres [Hshape [Hlen [Hq [Hone
         [Hnone [Hpre Hexn]]]]]]]]]]].
  rewrite Hloop in Hloop'. injection Hloop' as <- <-.
  destruct (for_each_check_app_events env cfg apps
              (with_events w [Printed line_starting; Printed line_rule]))
    as [new [Hev Hok]].
  rewrite Hloop in Hev. cbn [snd with_events results events] in Hev, Hres.
  rewrite Hrun.
  destruct outcome as [[]|e].
  - destruct (generate_report_run (with_events w1 [Printed line_rule]))
      as [lines [Hsnd Hfst]].
    exists (Return tt),
           (snd (generate_report (with_events w1 [Printed line_rule]))),
           rs,
           ([Printed line_starting; Printed line_rule] ++ new
              ++ [Printed line_rule] ++ map Printed lines)%list.
    split.
    { f_equal. rewrite Hfst, generate_report_results.
      cbn [with_events results]. now destruct (results w1). }
    split; [rewrite generate_report_results; exact Hres|].
    split.
    { rewrite Hsnd. cbn [with_events events]. rewrite Hev.
      now rewrite <- !app_assoc. }
    split.
    { cbn [app forallb is_check_event andb].
      rewrite forallb_app, Hok. cbn [app forallb is_check_event andb].
      apply printed_are_check_events. }
    repeat split; auto; try discriminate; now apply Hnone.
  - exists (Raise e), w1, rs. eexists.
    split; [reflexivity|]. split; [exact Hres|].
    rewrite Hev, <- !app_assoc.
    split; [reflexivity|]. split.
    { cbn [app forallb is_check_event andb]. exact Hok. }
    repeat split; auto; try discriminate; now apply Hnone.
Qed.

Lemma save_results_named (env : Env) (f : string) (w : World) :
  save_results env (Some f) w
  = match write_file env f with
    | None =>
        (Return tt,
         with_events w [Saved f (results w); Printed (line_saved f)])
    | Some e => (Raise (OtherError e), w)
    end.
Proof.
  unfold save_results. py_run.
  destruct (write_file env f); py_run; [|now rewrite <- app_assoc].
  now destruct w.
Qed.

(** What the last lines of [main] do: they save when asked to, which may
    raise; otherwise they alert when asked to and a result is DOWN, and
    exit. *)
Lemma finish_run (env : Env) (cfg : Config.t) (args : Args.t) (w : World) :
  finish env cfg args w
  = match save_error env args with
    | Some e => (Raise (OtherError e), w)
    | None =>
        (Raise (SystemExit (if forallb is_up (results w) then 0 else 1)),
         with_events w (save_events args (results w)
                          ++ alert_events env cfg args (results w)))
    end.
Proof.
  unfold finish, save_error, save_events, alert_events.
  unfold bind at 1.
  assert (Hsave :
    (if PyStr.truthy (Args.save args) then save_results env (Args.save args)
     else ret tt) w
    = match (if PyStr.truthy (Args.save args)
             then write_file env (or_default (Args.save args) "")
             else None) with
      | Some e => (Raise (OtherError e), w)
      | None =>
          (Return tt,
           with_events w
             (if PyStr.truthy (Args.save args)
              then [Saved (or_default (Args.save args) "") (results w);
                    Printed (line_saved (or_default (Args.save args) ""))]
              else []))
      end).
  { destruct (Args.save args) as [[|c f]|]; cbn [PyStr.truthy or_default];
      try (unfold ret; now rewrite with_events_nil).
    apply save_results_named. }
  rewrite Hsave. clear Hsave.
  destruct (if PyStr.truthy (Args.save args)
            then write_file env (or_default (Args.save args) "")
            else None) as [e|]; [reflexivity|].
  set (saved := if PyStr.truthy (Args.save args) then _ else _).
  unfold bind at 1. unfold get_results at 1. cbv beta iota zeta.
  cbn [with_events results].
  pose proof (no_down_all_up (results w)) as Hall.
  destruct (filter is_down (results w)) as [|d ds] eqn:Hd.
  - rewrite (proj1 Hall eq_refl). py_run. unfold with_events.
    now rewrite app_nil_r.
  - destruct (forallb is_up (results w));
      [destruct Hall as [_ Hall]; discriminate (Hall eq_refl)|].
    destruct (Args.email args); cbn [andb].
    + unfold bind, send_alert, alert_mail.
      destruct (PyStr.truthy (Config.alert_email cfg)); cbn [negb].
      * destruct (smtp env _); py_run; unfold with_events;
          cbn [results requests clock events];
          now rewrite <- ?app_assoc.
      * py_run. unfold with_events. cbn. now rewrite app_nil_r.
    + py_run. unfold with_events. cbn. now rewrite app_nil_r.
Qed.

(** A run that gets past the target list: the loaded configuration, the
    checks and, unless one of them raised, their report and, unless the
    report raised, the last lines. *)
Lemma run_shape (env : Env) (args : Args.t) (apps : list App.t) :
  applications_of env args = Some apps ->
  exists loop_outcome w2,
    run env args
    = match loop_outcome with
      | Raise e => (Raise e, w2)
      | Return _ =>
          match results w2 with
          | [] => (Raise ZeroDivisionError, w2)
          | _ :: _ => finish env (config_of env (Args.config args)) args w2
          end
      end
    /\ forallb is_check_event (events w2) = true
    /\ (forall r, In r (results w2) ->
          failed r \/ answered (config_of env (Args.config args)) r)
    /\ (List.length (results w2) <= List.length apps)%nat
    /\ (quiet env -> loop_outcome = Return tt)
    /\ (loop_outcome = Return tt ->
        1 <= Config.retry_attempts (config_of env (Args.config args)) ->
        map identity_of_result (results w2) = map identity_of_app apps)
    /\ (Config.retry_attempts (config_of env (Args.config args)) <= 0 ->
        results w2 = [] /\ loop_outcome = Return tt)
    /\ (1 <= Config.retry_attempts (config_of env (Args.config args)) ->
        map identity_of_result (results w2)
        = map identity_of_app (firstn (List.length (results w2)) apps))
    /\ (forall e, loop_outcome = Raise e -> exists d, e = OtherError d).
Proof.
  intros Happs. unfold run. rewrite main_unfold.
  unfold bind at 1. change (init_results fresh) with (Return tt, fresh).
  unfold bind at 1.
  destruct (load_config_of env (Args.config args) fresh) as [lines Hcfg].
  rewrite Hcfg. unfold main_after_config. unfold bind at 1.
  pose proof (load_applications_of env args
                (with_events fresh (map Printed lines))) as Hload.
  rewrite Happs in Hload. rewrite Hload.
  unfold bind at 1.
  destruct (check_multiple_applications_shape env
              (config_of env (Args.config args)) apps
              (with_events fresh (map Printed lines)))
    as [outcome [w2 [rs [new [Hrun [Hres [Hev [Hok [Hshape [Hlen [Hq [Hone
         [Hnone [Hpre Hexn]]]]]]]]]]]]]].
  rewrite Hrun. cbn [with_events results events] in Hres, Hev.
  change (results fresh) with (@nil Result.t) in Hres.
  change (events fresh) with (@nil Event) in Hev.
  cbn [app] in Hres, Hev.
  exists outcome, w2. rewrite Hres.
  split.
  { destruct outcome as [[]|e]; [|reflexivity].
    destruct rs; reflexivity. }
  split; [rewrite Hev, forallb_app, Hok, printed_are_check_events;
          reflexivity|].
  split; [exact Hshape|]. split; [exact Hlen|]. split; [exact Hq|].
  split; [exact Hone|]. split; [exact Hnone|]. split; [exact Hpre|].
  exact Hexn.
Qed.

(** A run that stops at the target list. *)
Lemma run_stops_at_target_list (env : Env) (args : Args.t) :
  applications_of env args = None ->
  exists w2,
    run env args = (Raise (SystemExit 1), w2)
    /\ results w2 = [] /\ requests w2 = 0%nat
    /\ forallb is_check_event (events w2) = true.
Proof.
  intros Happs. unfold run. rewrite main_unfold.
  unfold bind at 1. change (init_results fresh) with (Return tt, fresh).
  unfold bind at 1.
  destruct (load_config_of env (Args.config args) fresh) as [lines Hcfg].
  rewrite Hcfg. unfold main_after_config. unfold bind at 1.
  pose proof (load_applications_of env args
                (with_events fresh (map Printed lines))) as Hload.
  rewrite Happs in Hload. destruct Hload as [l Hload]. rewrite Hload.
  eexists. split; [reflexivity|].
  split; [reflexivity|]. split; [reflexivity|].
  cbn [with_events events]. change (events fresh) with (@nil Event).
  cbn [app]. rewrite forallb_app, printed_are_check_events.
  reflexivity.
Qed.

(** Where a run ends: at the target list, at a request that raised
    another exception than a [RequestException], at the division of the
    report, at a save that raised, or at its [sys.exit], the only end
    before which it saves and alerts.  In each case [w2] is the world
    after the checks and their report. *)
Lemma run_cases (env : Env) (args : Args.t) :
  exists w2,
    forallb is_check_event (events w2) = true
    /\ (forall r, In r (results w2) ->
          failed r \/ answered (config_of env (Args.config args)) r)
    /\ ((applications_of env args = None
         /\ run env args = (Raise (SystemExit 1), w2)
         /\ results w2 = [])
        \/ (exists d,
              run env args = (Raise (OtherError d), w2) /\ ~ quiet env)
        \/ (run env args = (Raise ZeroDivisionError, w2)
            /\ results w2 = [])
        \/ (exists d,
              run env args = (Raise (OtherError d), w2)
              /\ save_error env args = Some d
              /\ results w2 <> [])
        \/ (run env args
            = (Raise (SystemExit
                        (if forallb is_up (results w2) then 0 else 1)),
               with_events w2
                 (end_events env (config_of env (Args.config args)) args
                    (results w2)))
            /\ save_error env args = None
            /\ results w2 <> [])).
Proof.
  destruct (applications_of env args) as [apps|] eqn:Happs.
  - destruct (run_shape env args apps Happs)
      as [outcome [w2 [Hrun [Hok [Hshape [_ [Hq [_ [_ [_ Hexn]]]]]]]]]].
    exists w2. split; [exact Hok|]. split; [exact Hshape|]. right.
    destruct outcome as [[]|e].
    + destruct (results w2) as [|r rs] eqn:Hrs.
      * right. left. auto.
      * right. right. rewrite finish_run in Hrun. unfold end_events.
        rewrite Hrs in Hrun.
        destruct (save_error env args) as [d|].
        -- left. exists d. repeat split; auto. discriminate.
        -- right. repeat split; auto. discriminate.
    + left. destruct (Hexn e eq_refl) as [d ->]. exists d.
      split; [exact Hrun|]. intros Hquiet. discriminate (Hq Hquiet).
  - destruct (run_stops_at_target_list env args Happs)
      as [w2 [Hrun [Hres [_ Hok]]]].
    exists w2. split; [exact Hok|].
    split; [rewrite Hres; intros r []|]. left. auto.
Qed.
(** ** The exit status *)





(** C6: the target-list file holds the empty list.  No result is
    produced, so none is DOWN and every one of them is UP; the run does
    not reach its [sys.exit]: the report raises [ZeroDivisionError], and
    the exit status is 1, not 0. *)
Theorem empty_target_list_exit_status :
  fst (run (with_applications_file [] (answering 200 "OK"))
           (args_with_file "targets.json"))
    = Raise ZeroDivisionError
  /\ exit_status (fst (run (with_applications_file [] (answering 200 "OK"))
                           (args_with_file "targets.json"))) = 1
  /\ results (snd (run (with_applications_file [] (answering 200 "OK"))
                       (args_with_file "targets.json"))) = []
  /\ Forall (fun r => Result.status r = UP)
       (results (snd (run (with_applications_file [] (answering 200 "OK"))
                          (args_with_file "targets.json")))).
Proof.
  repeat split. constructor.
Qed.
Lemma check_events_hold_no_mail (es : list Event) (m : Mail) :
  forallb is_check_event es = true -> ~ In (Mailed m) es.
Proof.
  intros Hok Hin. rewrite forallb_forall in Hok.
  discriminate (Hok _ Hin).
Qed.

Lemma check_events_hold_no_save (es : list Event) (f : string)
    (rs : list Result.t) :
  forallb is_check_event es = true -> ~ In (Saved f rs) es.
Proof.
  intros Hok Hin. rewrite forallb_forall in Hok.
  discriminate (Hok _ Hin).
Qed.



(** What saving and alerting add to the events. *)
Lemma mailed_in_alert_events (env : Env) (cfg : Config.t) (args : Args.t)
    (rs : list Result.t) (m : Mail) :
  In (Mailed m) (alert_events env cfg args rs)
  <-> Args.email args = true
      /\ PyStr.truthy (Config.alert_email cfg) = true
      /\ filter is_down rs <> []
      /\ m = alert_mail cfg (filter is_down rs)
      /\ smtp env m = None.
Proof.
  unfold alert_events.
  destruct (filter is_down rs) as [|d ds] eqn:Hd.
  { cbn. split; [tauto|]. intros [_ [_ [H _]]]. now contradiction H. }
  destruct (Args.email args), (PyStr.truthy (Config.alert_email cfg));
    cbn [andb].
  - destruct (smtp env (alert_mail cfg (d :: ds))) as [e|] eqn:Hsmtp.
    + split.
      * intros [H|[]]. discriminate H.
      * intros [_ [_ [_ [-> H]]]]. congruence.
    + split.
      * intros [H|[H|[]]]; [|discriminate H].
        injection H as <-. repeat split; auto. discriminate.
      * intros [_ [_ [_ [-> _]]]]. now left.
  - split; [intros [] | intros [_ [H _]]; discriminate H].
  - split; [intros [] | intros [H _]; discriminate H].
  - split; [intros [] | intros [H _]; discriminate H].
Qed.

Lemma saved_in_save_events (args : Args.t) (rs rs' : list Result.t)
    (f : string) :
  In (Saved f rs') (save_events args rs)
  <-> Args.save args = Some f /\ f <> "" /\ rs' = rs.
Proof.
  unfold save_events.
  destruct (Args.save args) as [[|c g]|]; cbn [PyStr.truthy or_default].
  - split; [intros []|]. intros [[= <-] [H _]]. now contradiction H.
  - split.
    + intros [H|[H|[]]]; [|discriminate H].
      injection H as <- <-. repeat split; discriminate.
    + intros [[= <-] [_ ->]]. now left.
  - split; [intros []|]. intros [H _]. discriminate H.
Qed.

Lemma save_events_hold_no_mail (args : Args.t) (rs : list Result.t)
    (m : Mail) :
  ~ In (Mailed m) (save_events args rs).
Proof.
  unfold save_events. destruct (PyStr.truthy (Args.save args)); cbn;
    intros H; repeat (destruct H as [H|H]; try discriminate H); trivial.
Qed.

Lemma alert_events_hold_no_save (env : Env) (cfg : Config.t)
    (args : Args.t) (rs rs' : list Result.t) (f : string) :
  ~ In (Saved f rs') (alert_events env cfg args rs).
Proof.
  unfold alert_events.
  destruct (filter is_down rs); [tauto|].
  destruct (_ && _)%bool; [|tauto].
  destruct (smtp env _); cbn;
    intros H; repeat (destruct H as [H|H]; try discriminate H); trivial.
Qed.

(** What saving needs to go through. *)
Lemma save_error_named (env : Env) (args : Args.t) (f : string) :
  Args.save args = Some f -> f <> "" ->
  save_error env args = write_file env f.
Proof.
  intros Hsave Hf. unfold save_error. rewrite Hsave.
  destruct f; [now contradiction Hf | reflexivity].
Qed.

(** ** Choosing the targets, saving and alerting *)



(** X10: the run hands a message to the mail server exactly when it
    gets to its [sys.exit] with status 1 (so no request raised another
    exception than a [RequestException], and saving, if it was asked
    for, went through), [--email] is given, the loaded configuration
    has a non-empty [alert_email], at least one result is DOWN and the
    server takes the message; the message is the alert on the DOWN
    results, from and to that address. *)
Theorem alert_is_mailed_iff (env : Env) (args : Args.t) (m : Mail) :
  In (Mailed m) (events (snd (run env args)))
  <-> fst (run env args) = Raise (SystemExit 1)
      /\ save_error env args = None
      /\ Args.email args = true
      /\ PyStr.truthy
           (Config.alert_email (config_of env (Args.config args))) = true
      /\ filter is_down (results (snd (run env args))) <> []
      /\ m = alert_mail (config_of env (Args.config args))
               (filter is_down (results (snd (run env args))))
      /\ smtp env m = None.
Proof.
  set (cfg := config_of env (Args.config args)).
  destruct (run_cases env args) as [w2 [Hok [_ Hcases]]].
  pose proof (check_events_hold_no_mail (events w2) m Hok) as Hno.
  destruct Hcases
    as [[_ [Hrun Hres]]|[[d [Hrun Hq]]|[[Hrun Hres]|[[d [Hrun
         [Hsave Hres]]]|[Hrun [Hsave Hres]]]]]];
    rewrite Hrun; cbn [fst snd].
  - rewrite Hres. cbn [filter].
    split; [tauto|]. intros [_ [_ [_ [_ [H _]]]]]. now contradiction H.
  - split; [tauto|]. intros [H _]. discriminate H.
  - split; [tauto|]. intros [H _]. discriminate H.
  - split; [tauto|]. intros [H _]. discriminate H.
  - cbn [with_events events results]. unfold end_events.
    rewrite Hsave. fold cfg. rewrite !in_app_iff.
    pose proof (save_events_hold_no_mail args (results w2) m) as Hno'.
    rewrite (mailed_in_alert_events env cfg args (results w2) m).
    split.
    + intros [H|[H|H]]; try tauto.
      split; [|split; [reflexivity | exact H]].
      destruct H as [_ [_ [Hdown _]]].
      destruct (forallb is_up (results w2)) eqn:Hall; [|reflexivity].
      apply no_down_all_up in Hall. now contradiction Hdown.
    + intros [_ [_ H]]. right. right. exact H.
Qed.

Lemma alert_is_mailed_iff_witness :
  In (Mailed
        (alert_mail
           (config_of (with_config_file (alerting "ops@example.org")
                         unreachable) (Args.config full_args))
           (filter is_down
              (results (snd (run (with_config_file
                                    (alerting "ops@example.org") unreachable)
                                 full_args))))))
     (events (snd (run (with_config_file (alerting "ops@example.org")
                          unreachable) full_args))).
Proof.
  apply (proj2 (alert_is_mailed_iff
                  (with_config_file (alerting "ops@example.org") unreachable)
                  full_args _)).
  split; [vm_compute; reflexivity|].
  split; [reflexivity|]. split; [reflexivity|]. split; [reflexivity|].
  split; [vm_compute; discriminate|]. split; reflexivity.
Defined.

(** X11: the run saves exactly when it gets to its [sys.exit], [--save]
    names a file and that file can be written; what it saves under that
    name is the list of the results of the run, DOWN applications or
    not, and that list is not empty.  A run that stops earlier (at the
    target list, at a request that raised another exception than a
    [RequestException], at the division of the report, or at the file
    that cannot be written) saves nothing. *)
Theorem results_are_saved_iff (env : Env) (args : Args.t) (f : string)
    (rs : list Result.t) :
  In (Saved f rs) (events (snd (run env args)))
  <-> (exists code, fst (run env args) = Raise (SystemExit code))
      /\ Args.save args = Some f
      /\ f <> ""
      /\ write_file env f = None
      /\ rs = results (snd (run env args))
      /\ rs <> [].
Proof.
  set (cfg := config_of env (Args.config args)).
  destruct (run_cases env args) as [w2 [Hok [_ Hcases]]].
  pose proof (check_events_hold_no_save (events w2) f rs Hok) as Hno.
  destruct Hcases
    as [[_ [Hrun Hres]]|[[d [Hrun Hq]]|[[Hrun Hres]|[[d [Hrun
         [Hsave Hres]]]|[Hrun [Hsave Hres]]]]]];
    rewrite Hrun; cbn [fst snd].
  - rewrite Hres.
    split; [tauto|]. intros [_ [_ [_ [_ [-> H]]]]]. now contradiction H.
  - split; [tauto|]. intros [[code H] _]. discriminate H.
  - split; [tauto|]. intros [[code H] _]. discriminate H.
  - split; [tauto|]. intros [[code H] _]. discriminate H.
  - cbn [with_events events results]. unfold end_events.
    rewrite Hsave. fold cfg. rewrite !in_app_iff.
    pose proof (alert_events_hold_no_save env cfg args (results w2) rs f)
      as Hno'.
    rewrite (saved_in_save_events args (results w2) rs f).
    split.
    + intros [H|[H|H]]; try tauto.
      destruct H as [Hf [Hne ->]].
      split; [eauto|]. split; [exact Hf|]. split; [exact Hne|].
      split; [|split; [reflexivity | exact Hres]].
      now rewrite <- (save_error_named env args f Hf Hne).
    + intros [_ [Hf [Hne [_ [-> _]]]]]. right. left. auto.
Qed.

Lemma results_are_saved_iff_witness :
  In (Saved "out.json"
        (results (snd (run (with_config_file (alerting "ops@example.org")
                              unreachable) full_args))))
     (events (snd (run (with_config_file (alerting "ops@example.org")
                          unreachable) full_args))).
Proof.
  apply (proj2 (results_are_saved_iff
                  (with_config_file (alerting "ops@example.org") unreachable)
                  full_args "out.json" _)).
  split; [exists 1; vm_compute; reflexivity|].
  split; [reflexivity|]. split; [discriminate|]. split; [reflexivity|].
  split; [reflexivity | vm_compute; discriminate].
Defined.
(** ** Results over several calls *)


(** ** How much a multi-target check asks of the network *)

Lemma check_app_counts (env : Env) (cfg : Config.t) (a : App.t) (w : World) :
  exists new,
    events (snd (check_app env cfg a w)) = (events w ++ new)%list
    /\ requests (snd (check_app env cfg a w))
       = (requests w + count_requests new)%nat
    /\ (count_requests new <= Z.to_nat (Config.retry_attempts cfg))%nat
    /\ (count_sleeps new <= Z.to_nat (Config.retry_attempts cfg) - 1)%nat.
Proof.
  unfold check_app. rewrite check_application_unfold.
  destruct (Z.lt_ge_cases (Config.retry_attempts cfg) 1) as [Hlt|Hge].
  - rewrite range_nonpos by lia. cbn [attempts]. unfold ret.
    cbn [snd with_events events requests].
    eexists [_]. split; [reflexivity|].
    unfold count_requests, count_sleeps.
    cbn [filter is_request is_sleep List.length]. lia.
  - destruct (attempts_trace env cfg
                (or_default (App.name a) (App.url a)) (App.url a)
                (or_default (App.method a) "GET") (App.headers a)
                (App.data a) (PyNum.range (Config.retry_attempts cfg))
                (with_events w
                   [Printed (line_checking
                               (or_default (App.name a) (App.url a)))]))
      as [o [w' [new [Hrun [Hev [Hreq [Hle [_ [Hsome _]]]]]]]]].
    rewrite range_length in Hle.
    assert (Ho : o <> Return None).
    { rewrite (range_pos _ Hge) in Hrun.
      destruct (attempts_return env cfg
                  (or_default (App.name a) (App.url a)) (App.url a)
                  (or_default (App.method a) "GET") (App.headers a)
                  (App.data a) (Z.to_nat (Config.retry_attempts cfg) - 1) 0
                  (with_events w
                     [Printed (line_checking
                                 (or_default (App.name a) (App.url a)))]))
        as [o' [w'' [Hret [Hsome' _]]]]; [lia|].
      rewrite Hret in Hrun. now injection Hrun as <- _. }
    specialize (Hsome Ho).
    rewrite Hrun. cbn [snd with_events events requests] in *.
    exists (Printed (line_checking (or_default (App.name a) (App.url a)))
              :: new).
    split; [now rewrite Hev, <- app_assoc|].
    change (count_requests (Printed _ :: new)) with (count_requests new).
    change (count_sleeps (Printed _ :: new)) with (count_sleeps new).
    repeat split; lia.
Qed.

Lemma for_each_check_app_counts (env : Env) (cfg : Config.t)
    (apps : list App.t) :
  forall w, exists new,
    events (snd (for_each apps (check_app env cfg) w))
      = (events w ++ new)%list
    /\ requests (snd (for_each apps (check_app env cfg) w))
       = (requests w + count_requests new)%nat
    /\ (count_requests new
        <= Z.to_nat (Config.retry_attempts cfg) * List.length apps)%nat
    /\ (count_sleeps new
        <= (Z.to_nat (Config.retry_attempts cfg) - 1) * List.length apps)%nat.
Proof.
  induction apps as [|a apps IH]; intros w; cbn [for_each].
  - exists []. cbn. rewrite app_nil_r. repeat split; lia.
  - unfold bind.
    destruct (check_app_counts env cfg a w) as [new [Hev [Hreq [Hr Hs]]]].
    destruct (check_app env cfg a w) as [[o|e] w1] eqn:Hrun;
      cbn [snd] in Hev, Hreq.
    + destruct (IH w1) as [new' [Hev' [Hreq' [Hr' Hs']]]].
      exists (new ++ new')%list.
      rewrite Hev', Hev, Hreq', Hreq, count_requests_app, count_sleeps_app.
      cbn [List.length].
      repeat split; [now rewrite app_assoc | lia | nia | nia].
    + exists new. cbn [snd List.length].
      repeat split; [exact Hev | exact Hreq | nia | nia].
Qed.

(** X13: a multi-target check makes at most [retry_attempts] requests
    and at most [retry_attempts - 1] sleeps per target, whatever the
    network does; the report at its end makes none. *)
Theorem check_multiple_request_budget (env : Env) (cfg : Config.t)
    (apps : list App.t) (w : World) :
  exists new,
    events (snd (check_multiple_applications env cfg apps w))
      = (events w ++ new)%list
    /\ requests (snd (check_multiple_applications env cfg apps w))
       = (requests w + count_requests new)%nat
    /\ (count_requests new
        <= Z.to_nat (Config.retry_attempts cfg) * List.length apps)%nat
    /\ (count_sleeps new
        <= (Z.to_nat (Config.retry_attempts cfg) - 1) * List.length apps)%nat.
Proof.
  destruct (check_multiple_applications_run env cfg apps w)
    as [outcome [w1 [Hloop Hrun]]].
  destruct (for_each_check_app_counts env cfg apps
              (with_events w [Printed line_starting; Printed line_rule]))
    as [new [Hev [Hreq [Hr Hs]]]].
  rewrite Hloop in Hev, Hreq. cbn [snd with_events events requests] in *.
  rewrite Hrun.
  assert (Hcr : forall ls, count_requests (map Printed ls) = 0%nat)
    by (induction ls; [reflexivity | assumption]).
  assert (Hcs : forall ls, count_sleeps (map Printed ls) = 0%nat)
    by (induction ls; [reflexivity | assumption]).
  destruct outcome as [[]|e]; cbn [snd].
  - destruct (generate_report_run (with_events w1 [Printed line_rule]))
      as [lines [-> _]].
    cbn [with_events events requests].
    exists ([Printed line_starting; Printed line_rule] ++ new
              ++ [Printed line_rule] ++ map Printed lines)%list.
    rewrite !count_requests_app, !count_sleeps_app, Hcr, Hcs.
    change (count_requests [Printed line_starting; Printed line_rule])
      with 0%nat.
    change (count_sleeps [Printed line_starting; Printed line_rule])
      with 0%nat.
    change (count_requests [Printed line_rule]) with 0%nat.
    change (count_sleeps [Printed line_rule]) with 0%nat.
    split.
    { rewrite Hev, <- !app_assoc. reflexivity. }
    repeat split; lia.
  - exists ([Printed line_starting; Printed line_rule] ++ new)%list.
    rewrite !count_requests_app, !count_sleeps_app.
    change (count_requests [Printed line_starting; Printed line_rule])
      with 0%nat.
    change (count_sleeps [Printed line_starting; Printed line_rule])
      with 0%nat.
    split.
    { rewrite Hev, <- !app_assoc. reflexivity. }
    repeat split; lia.
Qed.

(** ** The text of the alert *)

Lemma string_app_assoc (a b c : string) : ((a ++ b) ++ c = a ++ b ++ c)%string.
Proof. induction a as [|x a IH]; [reflexivity|]. cbn. now rewrite IH. Qed.

Lemma alert_fold_extends (down_apps : list Result.t) :
  forall message, exists rest,
    fold_left (fun message app => (message ++ alert_entry app)%string)
      down_apps message
    = (message ++ rest)%string.
Proof.
  induction down_apps as [|a l IH]; intros message; cbn [fold_left].
  - exists "". induction message as [|x m IHm]; [reflexivity|].
    cbn. now rewrite <- IHm.
  - destruct (IH (message ++ alert_entry a)%string) as [rest Hrest].
    exists (alert_entry a ++ rest)%string.
    now rewrite Hrest, string_app_assoc.
Qed.

(** X14: the body of the alert opens with its heading and holds, for
    every DOWN result it is made from, the line with the result's name
    and its error, or "Unknown error" for a result without one. *)
Theorem alert_names_every_down_app (down_apps : list Result.t)
    (r : Result.t) :
  In r down_apps ->
  PyStr.occurs_in (alert_entry r) (alert_message down_apps)
  /\ prefix ("The following applications are down:" ++ newline)
       (alert_message down_apps) = true.
Proof.
  intros Hin. split.
  - unfold alert_message.
    change (fun message app =>
              (message ++ "- " ++ Result.name app ++ ": "
                 ++ error_or_unknown app ++ newline)%string)
      with (fun message app => (message ++ alert_entry app)%string).
    generalize ("The following applications are down:" ++ newline)%string
      as message.
    induction down_apps as [|a l IH]; intros message; [contradiction|].
    cbn [fold_left]. destruct Hin as [->|Hin].
    + destruct (alert_fold_extends l (message ++ alert_entry r)%string)
        as [rest Hrest].
      exists message, rest. now rewrite Hrest, string_app_assoc.
    + now apply IH.
  - apply prefix_occurs. unfold alert_message.
    change (fun message app =>
              (message ++ "- " ++ Result.name app ++ ": "
                 ++ error_or_unknown app ++ newline)%string)
      with (fun message app => (message ++ alert_entry app)%string).
    apply alert_fold_extends.
Qed.

Lemma alert_names_every_down_app_witness :
  In (sample_down "b" "Read timed out") (filter is_down two_of_three)
  /\ PyStr.occurs_in (alert_entry (sample_down "b" "Read timed out"))
       (alert_message (filter is_down two_of_three))
  /\ prefix ("The following applications are down:" ++ newline)
       (alert_message (filter is_down two_of_three)) = true.
Proof.
  split; [left; reflexivity|].
  apply (alert_names_every_down_app (filter is_down two_of_three)
           (sample_down "b" "Read timed out")).
  left; reflexivity.
Defined.

(** ** Whole runs *)

Lemma run_unfold (env : Env) (args : Args.t) (apps : list App.t) :
  applications_of env args = Some apps ->
  exists lines,
    run env args
    = match check_multiple_applications env
              (config_of env (Args.config args)) apps
              (with_events fresh (map Printed lines)) with
      | (Return _, w2) => finish env (config_of env (Args.config args)) args w2
      | (Raise e, w2) => (Raise e, w2)
      end.
Proof.
  intros Happs. unfold run. rewrite main_unfold.
  unfold bind at 1. change (init_results fresh) with (Return tt, fresh).
  unfold bind at 1.
  destruct (load_config_of env (Args.config args) fresh) as [lines Hcfg].
  rewrite Hcfg. unfold main_after_config. unfold bind at 1.
  pose proof (load_applications_of env args
                (with_events fresh (map Printed lines))) as Hload.
  rewrite Happs in Hload. rewrite Hload.
  exists lines. reflexivity.
Qed.

Lemma generate_report_requests (w : World) :
  requests (snd (generate_report w)) = requests w.
Proof.
  destruct (results w) as [|r rs] eqn:Hrs.
  - now rewrite generate_report_empty.
  - now rewrite generate_report_nonempty by (rewrite Hrs; discriminate).
Qed.

(** When every check returns one result that satisfies [P] after [k]
    requests, the loop over the applications gives one such result per
    application after [k] requests each. *)
Lemma for_each_check_app_post (env : Env) (cfg : Config.t)
    (P : Result.t -> Prop) (k : nat) :
  (forall a w, exists r w',
      check_app env cfg a w = (Return (Some r), w')
      /\ results w' = (results w ++ [r])%list
      /\ requests w' = (requests w + k)%nat
      /\ P r) ->
  forall apps w, exists rs,
    fst (for_each apps (check_app env cfg) w) = Return tt
    /\ results (snd (for_each apps (check_app env cfg) w))
       = (results w ++ rs)%list
    /\ Forall P rs
    /\ List.length rs = List.length apps
    /\ requests (snd (for_each apps (check_app env cfg) w))
       = (requests w + k * List.length apps)%nat.
Proof.
  intros Hcheck. induction apps as [|a apps IH]; intros w; cbn [for_each].
  - exists []. cbn. rewrite app_nil_r. repeat split; auto. lia.
  - unfold bind.
    destruct (Hcheck a w) as [r [w' [Hrun [Hres [Hreq HP]]]]].
    rewrite Hrun. destruct (IH w') as [rs [Hret [Hres' [HPs [Hlen Hreq']]]]].
    exists (r :: rs). rewrite Hret, Hres', Hres, Hreq', Hreq, <- app_assoc.
    cbn [List.length app]. repeat split; auto. lia.
Qed.

(** The multi-target check and the rest of the run, from such checks:
    the exit status is 1 when saving raises, and otherwise 0 or 1 as
    all the results are UP or not. *)
Lemma run_post (env : Env) (args : Args.t) (apps : list App.t)
    (P : Result.t -> Prop) (k : nat) :
  applications_of env args = Some apps ->
  apps <> [] ->
  (forall a w, exists r w',
      check_app env (config_of env (Args.config args)) a w
        = (Return (Some r), w')
      /\ results w' = (results w ++ [r])%list
      /\ requests w' = (requests w + k)%nat
      /\ P r) ->
  Forall P (results (snd (run env args)))
  /\ List.length (results (snd (run env args))) = List.length apps
  /\ requests (snd (run env args)) = (k * List.length apps)%nat
  /\ exit_status (fst (run env args))
     = match save_error env args with
       | Some _ => 1
       | None => if forallb is_up (results (snd (run env args))) then 0 else 1
       end.
Proof.
  intros Happs Hne Hcheck.
  destruct (run_unfold env args apps Happs) as [lines Hrun].
  set (cfg := config_of env (Args.config args)) in *.
  destruct (check_multiple_applications_run env cfg apps
              (with_events fresh (map Printed lines)))
    as [outcome [w1 [Hloop Hcm]]].
  destruct (for_each_check_app_post env cfg P k Hcheck apps
              (with_events (with_events fresh (map Printed lines))
                 [Printed line_starting; Printed line_rule]))
    as [rs [Hret [Hres [HP [Hlen Hreq]]]]].
  rewrite Hloop in Hret, Hres, Hreq.
  cbn [fst snd with_events results requests] in *.
  subst outcome.
  change (results fresh) with (@nil Result.t) in Hres.
  change (requests fresh) with 0%nat in Hreq. cbn [app Nat.add] in *.
  assert (Hnonempty : results (with_events w1 [Printed line_rule]) <> []).
  { cbn [with_events results]. rewrite Hres. intros E. rewrite E in Hlen.
    destruct apps; [now contradiction Hne | discriminate Hlen]. }
  rewrite Hcm, (generate_report_nonempty _ Hnonempty) in Hrun.
  cbn [fst snd] in Hrun. rewrite finish_run in Hrun.
  rewrite Hrun.
  destruct (save_error env args);
    cbn [fst snd with_events results requests exit_status];
    rewrite Hres; auto.
Qed.



(** X16: when every request is answered with an expected status code
    and a body that, lower-cased, holds no critical keyword,
    [retry_attempts] is at least 1 and the command line selects at least
    one application, the run makes one request per application and
    every result is UP; the exit status is 0 when the results are saved
    or do not have to be, and 1 when saving them raises. *)
Theorem healthy_network_exit_status (env : Env) (args : Args.t)
    (apps : list App.t) :
  (forall i c, exists code text,
      http env i c = Response code text
      /\ In code (Config.expected_status_codes
                    (config_of env (Args.config args)))
      /\ forall keyword,
           In keyword (Config.critical_keywords
                         (config_of env (Args.config args))) ->
           ~ PyStr.occurs_in keyword (PyStr.lower text)) ->
  applications_of env args = Some apps ->
  apps <> [] ->
  1 <= Config.retry_attempts (config_of env (Args.config args)) ->
  Forall (fun r => Result.status r = UP) (results (snd (run env args)))
  /\ List.length (results (snd (run env args))) = List.length apps
  /\ requests (snd (run env args)) = List.length apps
  /\ exit_status (fst (run env args))
     = match save_error env args with
       | None => 0
       | Some _ => 1
       end.
Proof.
  intros Hnet Happs Hne Hn.
  set (cfg := config_of env (Args.config args)) in *.
  destruct (run_post env args apps (fun r => Result.status r = UP) 1
              Happs Hne) as [HP [Hlen [Hreq Hexit]]].
  { intros a w. fold cfg. unfold check_app.
    rewrite check_application_unfold.
    rewrite (range_pos _ Hn). cbn [seq map].
    destruct (Hnet (requests w)
                (http_call cfg (App.url a) (or_default (App.method a) "GET")
                   (App.headers a) (App.data a)))
      as [code [text [Hout [Hcode Hkw]]]].
    fold cfg.
    rewrite (attempts_response env cfg _ (App.url a) _ (App.headers a)
               (App.data a) _ _ _ code text) by exact Hout.
    edestruct on_response_run as [r [Hrun [_ [_ [_ [_ [_ [_ Hs]]]]]]]].
    rewrite Hrun. exists r. eexists. split; [reflexivity|].
    cbn [with_events results requests].
    split; [reflexivity|]. split; [lia|].
    rewrite Hs. apply determine_status_up. split.
    - now apply code_in_spec.
    - destruct (any_keyword_in _ _) eqn:Hany; [|reflexivity].
      apply any_keyword_in_spec in Hany as [k [Hin Hocc]].
      now contradiction (Hkw k Hin). }
  split; [exact HP|]. split; [exact Hlen|]. split; [rewrite Hreq; lia|].
  rewrite Hexit. destruct (save_error env args); [reflexivity|].
  replace (forallb is_up (results (snd (run env args)))) with true;
    [reflexivity|].
  symmetry. apply forallb_forall. intros r Hr.
  rewrite Forall_forall in HP. unfold is_up. now rewrite (HP r Hr).
Qed.

Lemma healthy_network_exit_status_witness :
  applications_of (answering 200 "All systems running") no_args
    = Some default_applications
  /\ default_applications <> []
  /\ 1 <= Config.retry_attempts
            (config_of (answering 200 "All systems running")
               (Args.config no_args))
  /\ Forall (fun r => Result.status r = UP)
       (results (snd (run (answering 200 "All systems running") no_args)))
  /\ List.length
       (results (snd (run (answering 200 "All systems running") no_args)))
     = 3%nat
  /\ requests (snd (run (answering 200 "All systems running") no_args))
     = 3%nat
  /\ exit_status (fst (run (answering 200 "All systems running") no_args))
     = 0.
Proof.
  split; [reflexivity|]. split; [discriminate|].
  split; [vm_compute; discriminate|].
  apply (healthy_network_exit_status (answering 200 "All systems running")
           no_args default_applications).
  - intros i c. exists 200, "All systems running".
    split; [reflexivity|]. split; [cbn; auto|].
    intros keyword Hin Hocc.
    assert (Hany : any_keyword_in
                     (Config.critical_keywords default_config)
                     (PyStr.lower "All systems running") = true)
      by (apply any_keyword_in_spec; eauto).
    vm_compute in Hany. discriminate Hany.
  - reflexivity.
  - discriminate.
  - vm_compute; discriminate.
Defined.

(** ** Edges of the configuration *)



(** ** Exceptions that nothing catches *)




(** X21: the multi-target check does not catch it either.  When the
    first request for the first target raises another exception than a
    [RequestException], the whole check ends there with that exception:
    one request was made, the other targets are not checked, no result
    is appended and no report is printed. *)
Theorem other_exception_ends_the_checks (env : Env) (cfg : Config.t)
    (a : App.t) (rest : list App.t) (w : World) (d : string) :
  1 <= Config.retry_attempts cfg ->
  http env (requests w)
    (http_call cfg (App.url a) (or_default (App.method a) "GET")
       (App.headers a) (App.data a))
  = OtherException d ->
  check_multiple_applications env cfg (a :: rest) w
  = (Raise (OtherError d),
     {| results := results w;
        requests := S (requests w);
        clock := S (clock w);
        events :=
          events w
          ++ [ Printed line_starting; Printed line_rule;
               Printed (line_checking
                          (or_default (App.name a) (App.url a)));
               Requested
                 (http_call cfg (App.url a) (or_default (App.method a) "GET")
                    (App.headers a) (App.data a)) ] |}).
Proof.
  intros Hn Hexn.
  unfold check_multiple_applications.
  unfold bind at 1. rewrite print_run.
  unfold bind at 1. rewrite print_run, with_events_app.
  unfold bind at 1. cbn [app for_each].
  unfold bind at 1. unfold check_app. rewrite check_application_unfold.
  rewrite with_events_app, (range_pos _ Hn). cbn [seq map app].
  rewrite (attempts_other env cfg _ (App.url a) _ (App.headers a)
             (App.data a) _ _ _ d) by exact Hexn.
  cbn [with_events results requests clock events].
  now rewrite <- app_assoc.
Qed.

Lemma other_exception_ends_the_checks_witness :
  1 <= Config.retry_attempts
         (with_timeout {| sec_num := 0; sec_den := 1 |} default_config)
  /\ check_multiple_applications strict_on_timeout
       (with_timeout {| sec_num := 0; sec_den := 1 |} default_config)
       default_applications fresh
     = (Raise (OtherError
                 "Attempted to set connect timeout to 0, but the timeout cannot be set to a value less than or equal to 0."),
        {| results := [];
           requests := 1;
           clock := 1;
           events :=
             [ Printed line_starting; Printed line_rule;
               Printed (line_checking "WiseCow App");
               Requested
                 (requests_get "http://localhost:30007"
                    {| sec_num := 0; sec_den := 1 |} None) ] |}).
Proof.
  split; [vm_compute; discriminate|].
  apply (other_exception_ends_the_checks strict_on_timeout
           (with_timeout {| sec_num := 0; sec_den := 1 |} default_config)
           (named_app "http://localhost:30007" "WiseCow App")
           [ named_app "https://httpbin.org/status/200" "HTTPBin Test";
             named_app "https://google.com" "Google" ] fresh).
  - vm_compute; discriminate.
  - reflexivity.
Defined.


